(** * Quote arithmetic of the dynamic AMM client ([ts-client/src/amm/index.ts])

    A shallow embedding of the pure, quote-producing methods of [AmmImpl]:
    the proportional share converter, the depeg classification, the swap,
    deposit and withdraw quotes and the maximum swap-in estimate.

    Amounts are bn.js big integers, modelled as [Z]; a JavaScript exception
    is an [Err] result. *)

From Stdlib Require Import ZArith Bool String List Lia.
Import ListNotations.

Local Open Scope string_scope.
Local Open Scope Z_scope.

Set Implicit Arguments.

(** ** Failures and the error monad *)

(** Where an exception comes from.  [InvariantViolation] is raised by the
    [invariant(cond, message)] calls of index.ts, [AssertionFailed] by an
    [assert] inside bn.js (division by zero, [toNumber] out of range), and
    [CollaboratorFailure] by code outside index.ts (the swap curve, ./utils). *)
Inductive error : Type :=
| InvariantViolation (message : string)
| AssertionFailed
| CollaboratorFailure.

Inductive result (A : Type) : Type :=
| Ok (a : A)
| Err (e : error).

Arguments Ok {A} a.
Arguments Err {A} e.

Definition bind {A B : Type} (c : result A) (k : A -> result B) : result B :=
  match c with
  | Ok a => k a
  | Err e => Err e
  end.

Notation "x <- c ;; k" := (bind c (fun x => k))
  (at level 61, c at next level, right associativity).
Notation "' pat <- c ;; k" := (bind c (fun x => match x with pat => k end))
  (at level 61, pat pattern, c at next level, right associativity).
Notation "c ;;; k" := (bind c (fun _ => k))
  (at level 61, right associativity).

(** [invariant(cond, message)]: throws unless [cond] holds. *)
Definition invariant (cond : bool) (message : string) : result unit :=
  if cond then Ok tt else Err (InvariantViolation message).

(** A call into code outside index.ts; [None] stands for a thrown exception. *)
Definition external {A : Type} (r : option A) : result A :=
  match r with
  | Some a => Ok a
  | None => Err CollaboratorFailure
  end.

Definition succeeds {A : Type} (r : result A) : Prop := exists a, r = Ok a.

(** The call ended in a failed [invariant] of index.ts. *)
Definition raisesInvariant {A : Type} (r : result A) : Prop :=
  exists message, r = Err (InvariantViolation message).

(** ** bn.js integers *)

Module BN.

Definition t : Type := Z.

Definition isZero (a : t) : bool := a =? 0.
Definition eq (a b : t) : bool := a =? b.
Definition gt (a b : t) : bool := a >? b.
Definition add (a b : t) : t := a + b.
Definition sub (a b : t) : t := a - b.
Definition mul (a b : t) : t := a * b.

(** [a.div(b)]: truncated quotient; bn.js asserts that [b] is not zero. *)
Definition div (a b : t) : result t :=
  if isZero b then Err AssertionFailed else Ok (Z.quot a b).

(** [a.divRound(b)]: bn.js takes the truncated quotient and remainder,
    returns the quotient when the division is exact, and otherwise compares
    the remainder with half of the divisor: the quotient is kept when the
    remainder is below the half (or equal to the half of an odd divisor),
    and moved one step away from zero otherwise. *)
Definition divRound (a b : t) : result t :=
  if isZero b then Err AssertionFailed
  else
    let dm_div := Z.quot a b in
    let dm_mod := Z.rem a b in
    if isZero dm_mod then Ok dm_div
    else
      let md := if dm_div <? 0 then dm_mod - b else dm_mod in
      let half := Z.sgn b * (Z.abs b / 2) in
      let r2 := Z.abs b mod 2 in
      let cmp := md ?= half in
      if match cmp with Lt => true | Eq => r2 =? 1 | Gt => false end
      then Ok dm_div
      else Ok (if dm_div <? 0 then dm_div - 1 else dm_div + 1).

(** [a.toNumber()]: bn.js asserts that the magnitude fits in 53 bits. *)
Definition toNumber (a : t) : result Z :=
  if Z.abs a <? 2 ^ 53 then Ok a else Err AssertionFailed.

End BN.

Abbreviation BN := BN.t.

(** ** Data model *)

(** A public key, identified with its base58 text, so that
    [new PublicKey(tokenInfo.address)] is the address itself and
    [toBase58] is the identity. *)
Definition PublicKey : Type := string.

Definition equals (a b : PublicKey) : bool := String.eqb a b.

Inductive TradeDirection : Type := AToB | BToA.

Definition TradeDirection_eqb (a b : TradeDirection) : bool :=
  match a, b with
  | AToB, AToB | BToA, BToA => true
  | _, _ => false
  end.

Record TokenInfo : Type := {
  address : string;
  decimals : Z
}.

Record PoolFees : Type := {
  tradeFeeNumerator : BN;
  tradeFeeDenominator : BN;
  ownerTradeFeeNumerator : BN;
  ownerTradeFeeDenominator : BN
}.

Record TokenMultiplier : Type := {
  tokenAMultiplier : BN;
  tokenBMultiplier : BN;
  precisionFactor : Z
}.

(** [poolState.curveType]: an object with the single key [constantProduct]
    or [stable]; of the stable payload the quotes read [tokenMultiplier]. *)
Inductive CurveType : Type :=
| constantProduct
| stable (amp : BN) (tokenMultiplier : TokenMultiplier).

Record PoolState : Type := {
  tokenAMint : PublicKey;
  tokenBMint : PublicKey;
  fees : PoolFees;
  curveType : CurveType
}.

Record PoolInformation : Type := {
  tokenAAmount : BN;
  tokenBAmount : BN
}.

Record AccountsInfo : Type := {
  currentTime : BN;
  poolVaultALp : BN;
  poolVaultBLp : BN;
  vaultALpSupply : BN;
  vaultBLpSupply : BN;
  vaultAReserve : BN;
  vaultBReserve : BN;
  poolLpSupply : BN
}.

(** The [SwapCurve] interface of ./curve, as far as index.ts calls it. *)
Record SwapCurve : Type := {
  computeInAmount : BN -> BN -> BN -> TradeDirection -> option BN;
  computeD : BN -> BN -> option BN;
  computeImbalanceDeposit : BN -> BN -> BN -> BN -> BN -> PoolFees -> option BN;
  computeWithdrawOne : BN -> BN -> BN -> BN -> PoolFees -> TradeDirection -> option BN
}.

Record DepositQuote : Type := {
  poolTokenAmountOut : BN;
  minPoolTokenAmountOut : BN;
  tokenAInAmount : BN;
  tokenBInAmount : BN
}.

Record WithdrawQuote : Type := {
  poolTokenAmountIn : BN;
  tokenAOutAmount : BN;
  tokenBOutAmount : BN;
  minTokenAOutAmount : BN;
  minTokenBOutAmount : BN
}.

(** ** Reference notions of the specification *)

(** "Its current proportional share of total value exceeds 95%": the part
    [part] of the total [total], compared without division. *)
Definition shareExceeds95Percent (part total : Z) : bool :=
  95 * total <? 100 * part.

(** The quotient [a / b] rounded up to the next integer, for [0 < b]. *)
Definition ceilingDiv (a b : Z) : Z := (a + b - 1) / b.

(** ** Helpers of ./utils and ./constants *)

(** Modelled from the spec: [getMinAmountWithSlippage] is defined in ./utils,
    which is not among the sources.  The specification gives the slippage in
    basis points and the slippage-adjusted minimum as
    [amount * (10000 - slippageBps) / 10000] in integer arithmetic; the
    product and the quotient are the bn.js ones. *)
Definition getMinAmountWithSlippage (amount : BN) (slippageBps : Z) : BN :=
  Z.quot (BN.mul amount (10000 - slippageBps)) 10000.

Section AmmImpl.

(** Types owned by collaborators: the vault state of the vault SDK, the
    depeg account map and the decimal type of the price impact. *)
Context {VaultState DepegAccounts Decimal : Type}.

(** Constants of ./constants. *)
Variable UNLOCK_AMOUNT_BUFFER : Z.
Variable ERROR_INVALID_MINT : string.

(** [calculateWithdrawableAmount] of the vault SDK. *)
Variable calculateWithdrawableAmount : Z -> VaultState -> BN.

Record VaultImpl : Type := {
  vaultState : VaultState
}.

(** The argument object of [calculateSwapQuote]. *)
Record SwapQuoteParam : Type := {
  param_currentTime : Z;
  param_poolState : PoolState;
  param_depegAccounts : DepegAccounts;
  param_poolVaultALp : BN;
  param_poolVaultBLp : BN;
  param_vaultA : VaultState;
  param_vaultB : VaultState;
  param_vaultALpSupply : BN;
  param_vaultBLpSupply : BN;
  param_vaultAReserve : BN;
  param_vaultBReserve : BN
}.

(** Functions of ./utils that are not among the sources.
    [calculateSwapQuote] returns [{ amountOut, fee, priceImpact }]. *)
Variable calculateSwapQuote :
  PublicKey -> BN -> SwapQuoteParam -> option (BN * BN * Decimal).
Variable calculateMaxSwapOutAmount :
  PublicKey -> PublicKey -> PublicKey -> BN -> BN -> BN -> BN -> option BN.
Variable computeActualDepositAmount : BN -> BN -> BN -> BN -> BN -> option BN.
Variable getMaxAmountWithSlippage : BN -> Z -> BN.

Record SwapQuote : Type := {
  swapInAmount : BN;
  swapOutAmount : BN;
  minSwapOutAmount : BN;
  fee : BN;
  priceImpact : Decimal
}.

(** The fields of an [AmmImpl] object that the quote methods read
    ([tokenInfos] is the two-element array behind [tokenA] and [tokenB]). *)
Record AmmImpl : Type := {
  tokenInfos : TokenInfo * TokenInfo;
  poolState : PoolState;
  poolInfo : PoolInformation;
  vaultA : VaultImpl;
  vaultB : VaultImpl;
  accountsInfo : AccountsInfo;
  swapCurve : SwapCurve;
  depegAccounts : DepegAccounts
}.

Definition tokenA (this : AmmImpl) : TokenInfo := fst (tokenInfos this).
Definition tokenB (this : AmmImpl) : TokenInfo := snd (tokenInfos this).

Definition isStablePool (this : AmmImpl) : bool :=
  match curveType (poolState this) with
  | stable _ _ => true
  | constantProduct => false
  end.

(** *** Proportional share converter *)

Definition getShareByAmount (amount tokenAmount lpSupply : BN) (roundUp : bool)
  : result BN :=
  if BN.isZero tokenAmount then Ok 0
  else if roundUp then BN.divRound (BN.mul amount lpSupply) tokenAmount
       else BN.div (BN.mul amount lpSupply) tokenAmount.

Definition getAmountByShare (amount tokenAmount lpSupply : BN) (roundUp : bool)
  : result BN :=
  if BN.isZero lpSupply then Ok 0
  else if roundUp then BN.divRound (BN.mul amount tokenAmount) lpSupply
       else BN.div (BN.mul amount tokenAmount) lpSupply.

Definition computeActualInAmount
  (poolTokenAmount poolLpSupply poolVaultALp poolVaultBLp
   vaultALpSupply vaultBLpSupply
   vaultAWithdrawableAmount vaultBWithdrawableAmount : BN) : result (BN * BN) :=
  aVaultLpMinted <- getShareByAmount poolTokenAmount poolLpSupply poolVaultALp true ;;
  bVaultLpMinted <- getShareByAmount poolTokenAmount poolLpSupply poolVaultBLp true ;;
  actualTokenAInAmount <-
    getAmountByShare aVaultLpMinted vaultAWithdrawableAmount vaultALpSupply true ;;
  actualTokenBInAmount <-
    getAmountByShare bVaultLpMinted vaultBWithdrawableAmount vaultBLpSupply true ;;
  Ok (actualTokenAInAmount, actualTokenBInAmount).

(** *** Fees *)

Definition calculateAdminTradingFee (this : AmmImpl) (amount : BN) : result BN :=
  let f := fees (poolState this) in
  BN.div (BN.mul amount (ownerTradeFeeNumerator f)) (ownerTradeFeeDenominator f).

Definition calculateTradingFee (this : AmmImpl) (amount : BN) : result BN :=
  let f := fees (poolState this) in
  BN.div (BN.mul amount (tradeFeeNumerator f)) (tradeFeeDenominator f).

(** *** Depeg classification *)

Definition depegToken (this : AmmImpl) : result (option TokenInfo) :=
  match curveType (poolState this) with
  | constantProduct => Ok None
  | stable _ tokenMultiplier =>
      let tokenABalance :=
        BN.mul (tokenAAmount (poolInfo this)) (tokenAMultiplier tokenMultiplier) in
      let tokenBBalance :=
        BN.mul (tokenBAmount (poolInfo this)) (tokenBMultiplier tokenMultiplier) in
      let totalTokenBalance := BN.add tokenABalance tokenBBalance in
      if BN.isZero totalTokenBalance then Ok None
      else
        ratioA <- BN.div (BN.mul (tokenAAmount (poolInfo this)) 2) totalTokenBalance ;;
        let isTokenADepeg := BN.gt (BN.mul ratioA 100) 95 in
        ratioB <- BN.div (BN.mul (tokenBAmount (poolInfo this)) 2) totalTokenBalance ;;
        let isTokenBDepeg := BN.gt (BN.mul ratioB 100) 95 in
        if isTokenADepeg then Ok (Some (tokenA this))
        else if isTokenBDepeg then Ok (Some (tokenB this))
        else Ok None
  end.

(** *** Swap quote *)

Definition getSwapQuote (this : AmmImpl) (inTokenMint : PublicKey)
  (inAmountLamport : BN) (slippage : Z) : result SwapQuote :=
  now <- BN.toNumber (currentTime (accountsInfo this)) ;;
  ' (amountOut, fee', priceImpact') <-
    external (calculateSwapQuote inTokenMint inAmountLamport
      {| param_currentTime := now;
         param_poolState := poolState this;
         param_depegAccounts := depegAccounts this;
         param_poolVaultALp := poolVaultALp (accountsInfo this);
         param_poolVaultBLp := poolVaultBLp (accountsInfo this);
         param_vaultA := vaultState (vaultA this);
         param_vaultB := vaultState (vaultB this);
         param_vaultALpSupply := vaultALpSupply (accountsInfo this);
         param_vaultBLpSupply := vaultBLpSupply (accountsInfo this);
         param_vaultAReserve := vaultAReserve (accountsInfo this);
         param_vaultBReserve := vaultBReserve (accountsInfo this) |}) ;;
  Ok {| swapInAmount := inAmountLamport;
        swapOutAmount := amountOut;
        minSwapOutAmount := getMinAmountWithSlippage amountOut slippage;
        fee := fee';
        priceImpact := priceImpact' |}.

(** *** Maximum swap amounts *)

Definition getMaxSwapOutAmount (this : AmmImpl) (tokenMint : PublicKey)
  : result BN :=
  external (calculateMaxSwapOutAmount tokenMint
    (tokenAMint (poolState this)) (tokenBMint (poolState this))
    (tokenAAmount (poolInfo this)) (tokenBAmount (poolInfo this))
    (vaultAReserve (accountsInfo this)) (vaultBReserve (accountsInfo this))).

Definition getMaxSwapInAmount (this : AmmImpl) (tokenMint : PublicKey)
  : result BN :=
  invariant (equals tokenMint (tokenAMint (poolState this))
             || equals tokenMint (tokenBMint (poolState this)))
            ERROR_INVALID_MINT ;;;
  let '(outTokenMint, swapSourceAmount, swapDestAmount, tradeDirection) :=
    if equals tokenMint (tokenAMint (poolState this))
    then (tokenBMint (poolState this), tokenAAmount (poolInfo this),
          tokenBAmount (poolInfo this), AToB)
    else (tokenAMint (poolState this), tokenBAmount (poolInfo this),
          tokenAAmount (poolInfo this), BToA) in
  maxOutAmount <- getMaxSwapOutAmount this outTokenMint ;;
  let maxOutAmount :=
    if BN.eq maxOutAmount swapDestAmount then BN.sub maxOutAmount 1
    else maxOutAmount in
  maxInAmount <-
    external (computeInAmount (swapCurve this) maxOutAmount swapSourceAmount
                swapDestAmount tradeDirection) ;;
  adminFee <- calculateAdminTradingFee this maxInAmount ;;
  tradeFee <- calculateTradingFee this maxInAmount ;;
  let maxInAmount := BN.sub maxInAmount adminFee in
  let maxInAmount := BN.sub maxInAmount tradeFee in
  Ok maxInAmount.

(** *** Deposit quote *)

Definition getDepositQuote (this : AmmImpl) (tokenAInAmount tokenBInAmount : BN)
  (balance : bool) (slippage : Z) : result DepositQuote :=
  invariant
    (negb (negb (isStablePool this)
           && negb (BN.isZero tokenAInAmount)
           && negb (BN.isZero tokenBInAmount)
           && negb (BN.isZero (poolLpSupply (accountsInfo this)))))
    "Constant product only supports balanced deposit" ;;;
  invariant
    (negb (negb (BN.isZero tokenAInAmount)
           && negb (BN.isZero tokenBInAmount)
           && balance))
    "Deposit balance is not possible when both token in amount is non-zero" ;;;
  if BN.isZero (poolLpSupply (accountsInfo this)) then
    poolTokenAmountOut <-
      external (computeD (swapCurve this) tokenAInAmount tokenBInAmount) ;;
    Ok {| poolTokenAmountOut := poolTokenAmountOut;
          minPoolTokenAmountOut := poolTokenAmountOut;
          tokenAInAmount := tokenAInAmount;
          tokenBInAmount := tokenBInAmount |}
  else
    nowA <- BN.toNumber (currentTime (accountsInfo this)) ;;
    let vaultAWithdrawableAmount :=
      calculateWithdrawableAmount nowA (vaultState (vaultA this)) in
    nowB <- BN.toNumber (currentTime (accountsInfo this)) ;;
    let vaultBWithdrawableAmount :=
      calculateWithdrawableAmount nowB (vaultState (vaultB this)) in
    if BN.isZero tokenAInAmount && balance then
      poolTokenAmountOut <-
        getShareByAmount tokenBInAmount (tokenBAmount (poolInfo this))
          (poolLpSupply (accountsInfo this)) false ;;
      let bufferedPoolTokenAmountOut :=
        getMinAmountWithSlippage poolTokenAmountOut UNLOCK_AMOUNT_BUFFER in
      if isStablePool this then
        derivedTokenAInAmount <-
          BN.div (BN.mul tokenBInAmount (tokenAAmount (poolInfo this)))
                 (tokenBAmount (poolInfo this)) ;;
        Ok {| poolTokenAmountOut := bufferedPoolTokenAmountOut;
              minPoolTokenAmountOut :=
                getMinAmountWithSlippage bufferedPoolTokenAmountOut slippage;
              tokenAInAmount := derivedTokenAInAmount;
              tokenBInAmount := tokenBInAmount |}
      else
        ' (actualTokenAInAmount, actualTokenBInAmount) <-
          computeActualInAmount poolTokenAmountOut
            (poolLpSupply (accountsInfo this))
            (poolVaultALp (accountsInfo this)) (poolVaultBLp (accountsInfo this))
            (vaultALpSupply (accountsInfo this)) (vaultBLpSupply (accountsInfo this))
            vaultAWithdrawableAmount vaultBWithdrawableAmount ;;
        Ok {| poolTokenAmountOut := bufferedPoolTokenAmountOut;
              minPoolTokenAmountOut :=
                getMinAmountWithSlippage bufferedPoolTokenAmountOut slippage;
              tokenAInAmount := getMaxAmountWithSlippage actualTokenAInAmount slippage;
              tokenBInAmount := getMaxAmountWithSlippage actualTokenBInAmount slippage |}
    else if BN.isZero tokenBInAmount && balance then
      poolTokenAmountOut <-
        getShareByAmount tokenAInAmount (tokenAAmount (poolInfo this))
          (poolLpSupply (accountsInfo this)) false ;;
      let bufferedPoolTokenAmountOut :=
        getMinAmountWithSlippage poolTokenAmountOut UNLOCK_AMOUNT_BUFFER in
      if isStablePool this then
        derivedTokenBInAmount <-
          BN.div (BN.mul tokenAInAmount (tokenBAmount (poolInfo this)))
                 (tokenAAmount (poolInfo this)) ;;
        Ok {| poolTokenAmountOut := bufferedPoolTokenAmountOut;
              minPoolTokenAmountOut :=
                getMinAmountWithSlippage bufferedPoolTokenAmountOut slippage;
              tokenAInAmount := tokenAInAmount;
              tokenBInAmount := derivedTokenBInAmount |}
      else
        ' (actualTokenAInAmount, actualTokenBInAmount) <-
          computeActualInAmount poolTokenAmountOut
            (poolLpSupply (accountsInfo this))
            (poolVaultALp (accountsInfo this)) (poolVaultBLp (accountsInfo this))
            (vaultALpSupply (accountsInfo this)) (vaultBLpSupply (accountsInfo this))
            vaultAWithdrawableAmount vaultBWithdrawableAmount ;;
        Ok {| poolTokenAmountOut := bufferedPoolTokenAmountOut;
              minPoolTokenAmountOut :=
                getMinAmountWithSlippage bufferedPoolTokenAmountOut slippage;
              tokenAInAmount := getMaxAmountWithSlippage actualTokenAInAmount slippage;
              tokenBInAmount := getMaxAmountWithSlippage actualTokenBInAmount slippage |}
    else
      actualDepositAAmount <-
        external (computeActualDepositAmount tokenAInAmount
                    (tokenAAmount (poolInfo this)) (poolVaultALp (accountsInfo this))
                    (vaultALpSupply (accountsInfo this)) vaultAWithdrawableAmount) ;;
      actualDepositBAmount <-
        external (computeActualDepositAmount tokenBInAmount
                    (tokenBAmount (poolInfo this)) (poolVaultBLp (accountsInfo this))
                    (vaultBLpSupply (accountsInfo this)) vaultBWithdrawableAmount) ;;
      poolTokenAmountOut <-
        external (computeImbalanceDeposit (swapCurve this)
                    actualDepositAAmount actualDepositBAmount
                    (tokenAAmount (poolInfo this)) (tokenBAmount (poolInfo this))
                    (poolLpSupply (accountsInfo this)) (fees (poolState this))) ;;
      Ok {| poolTokenAmountOut := poolTokenAmountOut;
            minPoolTokenAmountOut := getMinAmountWithSlippage poolTokenAmountOut slippage;
            tokenAInAmount := tokenAInAmount;
            tokenBInAmount := tokenBInAmount |}.

(** *** Withdraw quote *)

(** [tokenMint] is optional: [None] asks for a balanced withdrawal. *)
Definition getWithdrawQuote (this : AmmImpl) (withdrawTokenAmount : BN)
  (slippage : Z) (tokenMint : option PublicKey) : result WithdrawQuote :=
  nowA <- BN.toNumber (currentTime (accountsInfo this)) ;;
  let vaultAWithdrawableAmount :=
    calculateWithdrawableAmount nowA (vaultState (vaultA this)) in
  nowB <- BN.toNumber (currentTime (accountsInfo this)) ;;
  let vaultBWithdrawableAmount :=
    calculateWithdrawableAmount nowB (vaultState (vaultB this)) in
  match tokenMint with
  | None =>
      vaultALpBurn <-
        getShareByAmount withdrawTokenAmount (poolLpSupply (accountsInfo this))
          (poolVaultALp (accountsInfo this)) false ;;
      vaultBLpBurn <-
        getShareByAmount withdrawTokenAmount (poolLpSupply (accountsInfo this))
          (poolVaultBLp (accountsInfo this)) false ;;
      tokenAOutAmount <-
        getAmountByShare vaultALpBurn vaultAWithdrawableAmount
          (vaultALpSupply (accountsInfo this)) false ;;
      tokenBOutAmount <-
        getAmountByShare vaultBLpBurn vaultBWithdrawableAmount
          (vaultBLpSupply (accountsInfo this)) false ;;
      Ok {| poolTokenAmountIn := withdrawTokenAmount;
            tokenAOutAmount := tokenAOutAmount;
            tokenBOutAmount := tokenBOutAmount;
            minTokenAOutAmount := getMinAmountWithSlippage tokenAOutAmount slippage;
            minTokenBOutAmount := getMinAmountWithSlippage tokenBOutAmount slippage |}
  | Some tokenMint =>
      let isWithdrawingTokenA := equals tokenMint (address (tokenA this)) in
      let isWithdrawingTokenB := equals tokenMint (address (tokenB this)) in
      invariant (isWithdrawingTokenA || isWithdrawingTokenB) ERROR_INVALID_MINT ;;;
      let tradeDirection :=
        if equals tokenMint (tokenAMint (poolState this)) then BToA else AToB in
      outAmount <-
        external (computeWithdrawOne (swapCurve this) withdrawTokenAmount
                    (poolLpSupply (accountsInfo this))
                    (tokenAAmount (poolInfo this)) (tokenBAmount (poolInfo this))
                    (fees (poolState this)) tradeDirection) ;;
      let '(vaultLpSupply, vaultTotalAmount) :=
        if TradeDirection_eqb tradeDirection AToB
        then (vaultBLpSupply (accountsInfo this), vaultBWithdrawableAmount)
        else (vaultALpSupply (accountsInfo this), vaultAWithdrawableAmount) in
      vaultLpToBurn <- BN.div (BN.mul outAmount vaultLpSupply) vaultTotalAmount ;;
      realOutAmount <- BN.div (BN.mul vaultLpToBurn vaultTotalAmount) vaultLpSupply ;;
      let minRealOutAmount := getMinAmountWithSlippage realOutAmount slippage in
      Ok {| poolTokenAmountIn := withdrawTokenAmount;
            tokenAOutAmount := if isWithdrawingTokenA then realOutAmount else 0;
            tokenBOutAmount := if isWithdrawingTokenB then realOutAmount else 0;
            minTokenAOutAmount := if isWithdrawingTokenA then minRealOutAmount else 0;
            minTokenBOutAmount := if isWithdrawingTokenB then minRealOutAmount else 0 |}
  end.

End AmmImpl.

(** ** Concrete pools

    Inputs at which the statements below are evaluated.  The vault state of
    these pools is just its withdrawable amount, and the curve is a simple
    one in the style of the constant-product curve ([computeD] is the integer
    square root of the product); none of the general statements depends on
    these choices. *)

Module Sample.

Definition withdrawable (now : Z) (vault : BN) : BN := vault.

Definition curve : SwapCurve :=
  {| computeInAmount := fun destAmount sourceReserve destReserve _ =>
       if destReserve - destAmount =? 0 then None
       else Some (Z.quot (sourceReserve * destAmount) (destReserve - destAmount) + 1);
     computeD := fun a b => Some (Z.sqrt (a * b));
     computeImbalanceDeposit := fun _ _ _ _ _ _ => None;
     computeWithdrawOne := fun lpAmount lpSupply a b _ direction =>
       if lpSupply =? 0 then None
       else Some (Z.quot (lpAmount * (match direction with AToB => b | BToA => a end))
                         lpSupply) |}.

Definition swapQuote (inTokenMint : PublicKey) (inAmount : BN)
  (p : @SwapQuoteParam BN unit) : option (BN * BN * unit) :=
  Some (9900, 25, tt).

Definition maxSwapOut (tokenMint mintA mintB : PublicKey)
  (amountA amountB reserveA reserveB : BN) : option BN :=
  if equals tokenMint mintA then Some (Z.min amountA reserveA)
  else if equals tokenMint mintB then Some (Z.min amountB reserveB)
  else None.

Definition actualDeposit (depositAmount beforeAmount lpBalance lpSupply total : BN)
  : option BN := Some depositAmount.

Definition maxWithSlippage (amount : BN) (slippageBps : Z) : BN :=
  Z.quot (amount * (10000 + slippageBps)) 10000.

Definition mintA : PublicKey := "So11111111111111111111111111111111111111112".
Definition mintB : PublicKey := "EPjFWdd5AufqSSqeM2qN1xzybapC8G4wEGGkZwyTDt1v".
Definition mintC : PublicKey := "Es9vMFrzaCERmJfrF4H2FYD4KCoNkY11McCe8BenwNYB".

Definition feeSchedule : PoolFees :=
  {| tradeFeeNumerator := 25; tradeFeeDenominator := 10000;
     ownerTradeFeeNumerator := 5; ownerTradeFeeDenominator := 10000 |}.

Definition multipliers (a b : BN) : TokenMultiplier :=
  {| tokenAMultiplier := a; tokenBMultiplier := b; precisionFactor := 6 |}.

(** The underlying amount behind [shares] vault shares, as the pool
    snapshot derives it (zero for a vault without shares). *)
Definition underlying (shares withdrawableAmount vaultSupply : BN) : BN :=
  if vaultSupply =? 0 then 0 else Z.quot (shares * withdrawableAmount) vaultSupply.

(** A pool of the given curve type, vault shares held by the pool, vault
    withdrawable amounts, vault share supplies and liquidity-token supply. *)
Definition pool (curveType : CurveType) (sharesA sharesB : BN)
  (withdrawableA withdrawableB vaultSupplyA vaultSupplyB lpSupply : BN)
  : @AmmImpl BN unit :=
  {| tokenInfos := ({| address := mintA; decimals := 9 |},
                    {| address := mintB; decimals := 6 |});
     poolState := {| tokenAMint := mintA; tokenBMint := mintB;
                     fees := feeSchedule; curveType := curveType |};
     poolInfo := {| tokenAAmount := underlying sharesA withdrawableA vaultSupplyA;
                    tokenBAmount := underlying sharesB withdrawableB vaultSupplyB |};
     vaultA := {| vaultState := withdrawableA |};
     vaultB := {| vaultState := withdrawableB |};
     accountsInfo := {| currentTime := 1700000000;
                        poolVaultALp := sharesA; poolVaultBLp := sharesB;
                        vaultALpSupply := vaultSupplyA;
                        vaultBLpSupply := vaultSupplyB;
                        vaultAReserve := withdrawableA;
                        vaultBReserve := withdrawableB;
                        poolLpSupply := lpSupply |};
     swapCurve := curve;
     depegAccounts := tt |}.

(** A stable pool holding 50 of each token, both multipliers 1. *)
Definition balancedStable : @AmmImpl BN unit :=
  pool (stable 100 (multipliers 1 1)) 50 50 1000 1000 1000 1000 100.

(** A stable pool holding 96 of A and 4 of B, multipliers 10 and 1. *)
Definition skewedStable : @AmmImpl BN unit :=
  pool (stable 100 (multipliers 10 1)) 96 4 1000 1000 1000 1000 100.

(** A stable pool with liquidity that holds 1000 of A and nothing of B. *)
Definition drainedStable : @AmmImpl BN unit :=
  pool (stable 100 (multipliers 1 1)) 1000 0 1000 1000 1000 1000 10.

(** A stable pool with liquidity that holds nothing of A and 1000 of B. *)
Definition drainedStableA : @AmmImpl BN unit :=
  pool (stable 100 (multipliers 1 1)) 0 1000 1000 1000 1000 1000 10.

(** A stable pool with liquidity whose vault B is empty: no shares issued,
    nothing withdrawable. *)
Definition emptyVaultStable : @AmmImpl BN unit :=
  pool (stable 100 (multipliers 1 1)) 1000 0 1000 0 1000 0 1000.

(** A stable pool before the first deposit. *)
Definition emptyStable : @AmmImpl BN unit :=
  pool (stable 100 (multipliers 1 1)) 0 0 0 0 0 0 0.

(** A constant-product pool before the first deposit. *)
Definition emptyPool : @AmmImpl BN unit :=
  pool constantProduct 0 0 0 0 0 0 0.

(** A constant-product pool with liquidity: 1,500,000 of each token. *)
Definition fundedPool : @AmmImpl BN unit :=
  pool constantProduct 1000000 1000000 3000000 3000000 2000000 2000000 1000000.

(** A stable pool with liquidity: 1,500,000 of each token. *)
Definition fundedStable : @AmmImpl BN unit :=
  pool (stable 100 (multipliers 1 1))
       1000000 1000000 3000000 3000000 2000000 2000000 1000000.

End Sample.

(** ** Further members of index.ts *)

(** [Buffer.readBigInt64LE(offset)] of Node: the eight bytes from [offset]
    on, least significant first, read as a two's-complement integer; a range
    error (here [None]) when fewer than eight bytes are left. *)
Fixpoint littleEndian (bytes : list Byte.byte) : Z :=
  match bytes with
  | [] => 0
  | b :: rest => Z.of_N (Byte.to_N b) + 256 * littleEndian rest
  end.

Definition asInt64 (v : Z) : Z := if v <? 2 ^ 63 then v else v - 2 ^ 64.

Definition readBigInt64LE (buf : list Byte.byte) (offset : nat) : option Z :=
  let window := firstn 8 (skipn offset buf) in
  if (length window =? 8)%nat then Some (asInt64 (littleEndian window)) else None.

(** The decoder that [decodeAccountTypeMapper] returns for
    [AccountType.SYSVAR_CLOCK]:
    [new BN(accountData.readBigInt64LE(32).toString())]. *)
Definition decodeSysvarClock (accountData : list Byte.byte) : result BN :=
  external (readBigInt64LE accountData 32).

(** What [withdraw] submits: the program method chosen by its [programMethod]
    expression, with the method's arguments and, for a single-sided removal,
    the user token account that receives the output.  The remaining accounts
    of the instruction are fixed by the pool and are left out. *)
Inductive UserToken : Type := userAToken | userBToken.

Inductive WithdrawMethod : Type :=
| removeLiquiditySingleSide (poolTokenAmount minimumOutAmount : BN)
    (userDestinationToken : UserToken)
| removeBalanceLiquidity (poolTokenAmount minimumAOutAmount minimumBOutAmount : BN).

Section Members.

Context {VaultState DepegAccounts : Type}.

Implicit Type this : @AmmImpl VaultState DepegAccounts.

(** [get feeBps]. *)
Definition feeBps this : result BN :=
  BN.div (BN.mul (tradeFeeNumerator (fees (poolState this))) 10000)
         (tradeFeeDenominator (fees (poolState this))).

(** The [programMethod] expression of [withdraw]. *)
Definition withdraw_programMethod this
  (lpTokenAmount tokenAOutAmount tokenBOutAmount : BN) : WithdrawMethod :=
  if isStablePool this
     && (BN.isZero tokenAOutAmount || BN.isZero tokenBOutAmount)
  then removeLiquiditySingleSide lpTokenAmount 0
         (if BN.isZero tokenBOutAmount then userAToken else userBToken)
  else removeBalanceLiquidity lpTokenAmount tokenAOutAmount tokenBOutAmount.

End Members.

(** Further inputs: a clock sysvar account whose timestamp field (bytes 32
    to 39) holds 1700000000, and a truncated one. *)
Module MoreSamples.

Import Byte.

Definition clockAccount : list Byte.byte :=
  repeat x00 32 ++ [x00; xf1; x53; x65; x00; x00; x00; x00].

Definition shortAccount : list Byte.byte := repeat x00 39.

(** A stable pool with liquidity and unequal vault share prices. *)
Definition unevenStable : @AmmImpl BN unit :=
  Sample.pool (stable 100 (Sample.multipliers 1 1))
    700000 900000 3000000 5000000 2000000 4000000 1000000.

(** The same pool with a curve whose [computeImbalanceDeposit] returns the
    share of the deposited sum in the pooled sum. *)
Definition imbalanceStable : @AmmImpl BN unit :=
  {| tokenInfos := tokenInfos unevenStable;
     poolState := poolState unevenStable;
     poolInfo := poolInfo unevenStable;
     vaultA := vaultA unevenStable;
     vaultB := vaultB unevenStable;
     accountsInfo := accountsInfo unevenStable;
     swapCurve :=
       {| computeInAmount := computeInAmount Sample.curve;
          computeD := computeD Sample.curve;
          computeImbalanceDeposit := fun a b poolA poolB lpSupply _ =>
            if poolA + poolB =? 0 then None
            else Some (Z.quot ((a + b) * lpSupply) (poolA + poolB));
          computeWithdrawOne := computeWithdrawOne Sample.curve |};
     depegAccounts := tt |}.

(** The funded constant-product pool with a clock of 2^53 seconds. *)
Definition wideClockPool : @AmmImpl BN unit :=
  {| tokenInfos := tokenInfos Sample.fundedPool;
     poolState := poolState Sample.fundedPool;
     poolInfo := poolInfo Sample.fundedPool;
     vaultA := vaultA Sample.fundedPool;
     vaultB := vaultB Sample.fundedPool;
     accountsInfo :=
       {| currentTime := 2 ^ 53;
          poolVaultALp := 1000000; poolVaultBLp := 1000000;
          vaultALpSupply := 2000000; vaultBLpSupply := 2000000;
          vaultAReserve := 3000000; vaultBReserve := 3000000;
          poolLpSupply := 1000000 |};
     swapCurve := swapCurve Sample.fundedPool;
     depegAccounts := tt |}.

End MoreSamples.

(** ** Facts about the error monad and bn.js division *)

Lemma bind_Ok {A B : Type} (a : A) (k : A -> result B) : bind (Ok a) k = k a.
Proof. reflexivity. Qed.

Lemma bind_Err {A B : Type} (e : error) (k : A -> result B) : bind (Err e) k = Err e.
Proof. reflexivity. Qed.

Lemma bind_succeeds {A B : Type} (c : result A) (k : A -> result B) (b : B) :
  bind c k = Ok b -> exists a, c = Ok a /\ k a = Ok b.
Proof.
  destruct c as [a | e]; simpl; intros H.
  - exists a. split; [reflexivity | exact H].
  - discriminate H.
Qed.

(** Two nested binds whose composition is known to return [a]. *)
Lemma bind_succeeds_eq {A B C : Type} (c : result A) (f : A -> result B)
  (k : B -> result C) (a : B) (r : result C) :
  (x <- c ;; f x) = Ok a -> k a = r ->
  (x <- c ;; y <- f x ;; k y) = r.
Proof.
  intros Hc Hk. destruct c as [x | e]; simpl in *.
  - rewrite Hc. exact Hk.
  - discriminate Hc.
Qed.

Lemma succeeds_not_Err {A : Type} (e : error) : ~ succeeds (@Err A e).
Proof. intros [a H]. discriminate H. Qed.

(** Invariant failures arise only from [invariant]: none of the arithmetic
    and none of the collaborators produces one. *)
Lemma Ok_no_invariant {A : Type} (a : A) : ~ raisesInvariant (Ok a).
Proof. intros [m H]. discriminate H. Qed.

Lemma bind_no_invariant {A B : Type} (c : result A) (k : A -> result B) :
  ~ raisesInvariant c -> (forall a, ~ raisesInvariant (k a)) ->
  ~ raisesInvariant (bind c k).
Proof.
  intros Hc Hk. destruct c as [a | e]; simpl.
  - apply Hk.
  - intros [m H]. apply Hc. exists m. congruence.
Qed.

Lemma external_no_invariant {A : Type} (r : option A) :
  ~ raisesInvariant (external r).
Proof. destruct r; intros [m H]; discriminate H. Qed.

Lemma div_no_invariant (a b : BN) : ~ raisesInvariant (BN.div a b).
Proof. unfold BN.div. destruct (BN.isZero b); intros [m H]; discriminate H. Qed.

Lemma divRound_no_invariant (a b : BN) : ~ raisesInvariant (BN.divRound a b).
Proof.
  unfold BN.divRound. cbv zeta.
  repeat match goal with
         | |- context [if ?c then _ else _] => destruct c
         | |- context [match ?c with Eq => _ | Lt => _ | Gt => _ end] => destruct c
         end; intros [m H]; discriminate H.
Qed.

Lemma toNumber_no_invariant (a : BN) : ~ raisesInvariant (BN.toNumber a).
Proof.
  unfold BN.toNumber. destruct (Z.abs a <? 2 ^ 53); intros [m H]; discriminate H.
Qed.

Lemma isZero_true (a : BN) : BN.isZero a = true <-> a = 0.
Proof. unfold BN.isZero. apply Z.eqb_eq. Qed.

Lemma isZero_false (a : BN) : BN.isZero a = false <-> a <> 0.
Proof. unfold BN.isZero. apply Z.eqb_neq. Qed.

Lemma div_by_zero (a : BN) : BN.div a 0 = Err AssertionFailed.
Proof. reflexivity. Qed.

Lemma div_nonzero (a b : BN) : b <> 0 -> BN.div a b = Ok (Z.quot a b).
Proof.
  intros Hb. unfold BN.div.
  apply isZero_false in Hb. rewrite Hb. reflexivity.
Qed.

Lemma div_floor (a b : BN) : 0 <= a -> 0 < b -> BN.div a b = Ok (a / b).
Proof.
  intros Ha Hb. rewrite div_nonzero by lia.
  rewrite Z.quot_div_nonneg by lia. reflexivity.
Qed.

Lemma toNumber_in_range (a : BN) : Z.abs a < 2 ^ 53 -> BN.toNumber a = Ok a.
Proof.
  intros H. unfold BN.toNumber.
  apply Z.ltb_lt in H. rewrite H. reflexivity.
Qed.

(** On non-negative operands [divRound] rounds to the nearest integer, ties
    upwards: it is the floor of [a / b + 1/2]. *)
Lemma divRound_nearest (a b : BN) :
  0 <= a -> 0 < b -> BN.divRound a b = Ok ((2 * a + b) / (2 * b)).
Proof.
  intros Ha Hb. unfold BN.divRound.
  assert (Hz : BN.isZero b = false) by (apply isZero_false; lia).
  rewrite Hz.
  rewrite Z.quot_div_nonneg, Z.rem_mod_nonneg by lia.
  pose proof (Z.div_mod a b ltac:(lia)) as Hdm.
  pose proof (Z.mod_pos_bound a b Hb) as Hr.
  pose proof (Z.div_pos a b Ha Hb) as Hq.
  set (q := a / b) in *. set (r := a mod b) in *.
  destruct (BN.isZero r) eqn:Hrz.
  - apply isZero_true in Hrz. f_equal.
    apply Z.div_unique with (r := b); lia.
  - apply isZero_false in Hrz.
    assert (Hneg : (q <? 0) = false) by (apply Z.ltb_ge; lia).
    rewrite Hneg.
    replace (Z.sgn b) with 1 by (symmetry; apply Z.sgn_pos; lia).
    rewrite Z.abs_eq by lia. rewrite Z.mul_1_l.
    pose proof (Z.div_mod b 2 ltac:(lia)) as Hb2.
    pose proof (Z.mod_pos_bound b 2 ltac:(lia)) as Hm2.
    destruct (r ?= b / 2) eqn:Hcmp.
    + apply Z.compare_eq in Hcmp.
      destruct (b mod 2 =? 1) eqn:Hodd.
      * apply Z.eqb_eq in Hodd. f_equal.
        apply Z.div_unique with (r := 2 * r + b); lia.
      * apply Z.eqb_neq in Hodd. f_equal.
        apply Z.div_unique with (r := 2 * r - b); lia.
    + rewrite Z.compare_lt_iff in Hcmp. f_equal.
      apply Z.div_unique with (r := 2 * r + b); lia.
    + rewrite Z.compare_gt_iff in Hcmp. f_equal.
      apply Z.div_unique with (r := 2 * r - b); lia.
Qed.

(** Whenever the remainder is positive and below half of the divisor,
    [divRound] returns the floor, one less than the quotient rounded up. *)
Lemma divRound_below_ceiling (a b : BN) :
  0 <= a -> 0 < b -> 0 < a mod b -> 2 * (a mod b) < b ->
  BN.divRound a b = Ok (a / b) /\ a / b + 1 = ceilingDiv a b.
Proof.
  intros Ha Hb Hr Hhalf.
  pose proof (Z.div_mod a b ltac:(lia)) as Hdm.
  split.
  - rewrite divRound_nearest by assumption. f_equal.
    symmetry. apply Z.div_unique with (r := 2 * (a mod b) + b); lia.
  - unfold ceilingDiv. apply Z.div_unique with (r := a mod b - 1); lia.
Qed.

(** The round-trip [floor (floor (x * s / t) * t / s)] never exceeds [x]. *)
Lemma share_round_trip_le (x s t : Z) :
  0 <= x -> 0 < s -> 0 < t -> x * s / t * t / s <= x.
Proof.
  intros Hx Hs Ht.
  assert (H1 : x * s / t * t <= x * s).
  { rewrite Z.mul_comm. apply Z.mul_div_le. exact Ht. }
  apply Z.le_trans with (m := x * s / s).
  - apply Z.div_le_mono; [exact Hs | exact H1].
  - rewrite Z.div_mul by lia. lia.
Qed.

Lemma getMinAmountWithSlippage_le (amount : BN) (slippageBps : Z) :
  0 <= amount -> 0 <= slippageBps ->
  getMinAmountWithSlippage amount slippageBps <= amount.
Proof.
  intros Ha Hs. unfold getMinAmountWithSlippage, BN.mul.
  destruct (Z.le_gt_cases slippageBps 10000) as [Hle | Hgt].
  - rewrite Z.quot_div_nonneg by nia.
    apply Z.div_le_upper_bound; nia.
  - apply Z.le_trans with (m := 0); [| exact Ha].
    apply Z.quot_le_upper_bound; nia.
Qed.

(** ** Proportional share converter *)

Lemma getShareByAmount_floor (amount tokenAmount lpSupply : BN) :
  0 <= amount -> 0 < tokenAmount -> 0 <= lpSupply ->
  getShareByAmount amount tokenAmount lpSupply false
  = Ok (amount * lpSupply / tokenAmount).
Proof.
  intros Ha Ht Hl. unfold getShareByAmount.
  assert (Hz : BN.isZero tokenAmount = false) by (apply isZero_false; lia).
  rewrite Hz. apply div_floor; unfold BN.mul; nia.
Qed.

Lemma getAmountByShare_floor (amount tokenAmount lpSupply : BN) :
  0 <= amount -> 0 <= tokenAmount -> 0 < lpSupply ->
  getAmountByShare amount tokenAmount lpSupply false
  = Ok (amount * tokenAmount / lpSupply).
Proof.
  intros Ha Ht Hl. unfold getAmountByShare.
  assert (Hz : BN.isZero lpSupply = false) by (apply isZero_false; lia).
  rewrite Hz. apply div_floor; unfold BN.mul; nia.
Qed.

(** With the [roundUp] flag the converter rounds to the nearest integer. *)
Lemma getShareByAmount_roundUp_nearest (amount tokenAmount lpSupply : BN) :
  0 <= amount -> 0 < tokenAmount -> 0 <= lpSupply ->
  getShareByAmount amount tokenAmount lpSupply true
  = Ok ((2 * (amount * lpSupply) + tokenAmount) / (2 * tokenAmount)).
Proof.
  intros Ha Ht Hl. unfold getShareByAmount.
  assert (Hz : BN.isZero tokenAmount = false) by (apply isZero_false; lia).
  rewrite Hz. apply divRound_nearest; unfold BN.mul; nia.
Qed.

Lemma getAmountByShare_roundUp_nearest (amount tokenAmount lpSupply : BN) :
  0 <= amount -> 0 <= tokenAmount -> 0 < lpSupply ->
  getAmountByShare amount tokenAmount lpSupply true
  = Ok ((2 * (amount * tokenAmount) + lpSupply) / (2 * lpSupply)).
Proof.
  intros Ha Ht Hl. unfold getAmountByShare.
  assert (Hz : BN.isZero lpSupply = false) by (apply isZero_false; lia).
  rewrite Hz. apply divRound_nearest; unfold BN.mul; nia.
Qed.

Lemma getShareByAmount_no_invariant (amount tokenAmount lpSupply : BN) roundUp :
  ~ raisesInvariant (getShareByAmount amount tokenAmount lpSupply roundUp).
Proof.
  unfold getShareByAmount.
  destruct (BN.isZero tokenAmount); [apply Ok_no_invariant |].
  destruct roundUp; [apply divRound_no_invariant | apply div_no_invariant].
Qed.

Lemma getAmountByShare_no_invariant (amount tokenAmount lpSupply : BN) roundUp :
  ~ raisesInvariant (getAmountByShare amount tokenAmount lpSupply roundUp).
Proof.
  unfold getAmountByShare.
  destruct (BN.isZero lpSupply); [apply Ok_no_invariant |].
  destruct roundUp; [apply divRound_no_invariant | apply div_no_invariant].
Qed.

Lemma computeActualInAmount_no_invariant (p s la lb sa sb wa wb : BN) :
  ~ raisesInvariant (computeActualInAmount p s la lb sa sb wa wb).
Proof.
  unfold computeActualInAmount.
  repeat (apply bind_no_invariant;
          [first [apply getShareByAmount_no_invariant
                 | apply getAmountByShare_no_invariant] | intros ?]).
  apply Ok_no_invariant.
Qed.

Create HintDb no_invariant.

#[local] Hint Resolve Ok_no_invariant external_no_invariant div_no_invariant
  divRound_no_invariant toNumber_no_invariant getShareByAmount_no_invariant
  getAmountByShare_no_invariant computeActualInAmount_no_invariant : no_invariant.

(** Walks through a monadic body: binds, branches and pair patterns. *)
Ltac no_invariant :=
  repeat match goal with
         | |- ~ raisesInvariant (bind _ _) =>
             apply bind_no_invariant; [solve [auto with no_invariant] | intros ?]
         | |- ~ raisesInvariant (if ?c then _ else _) => destruct c
         | |- ~ raisesInvariant (match ?x with (_, _) => _ end) => destruct x
         | |- ~ raisesInvariant (let _ := _ in _) => cbv zeta
         end;
  auto with no_invariant.

(** C4: for every amount and every rounding flag, [getShareByAmount] returns 0
    when the total amount it divides by is 0, and [getAmountByShare] returns 0
    when the share supply it divides by is 0; neither call fails. *)
Theorem converter_zero_divisor (amount other : BN) (roundUp : bool) :
  getShareByAmount amount 0 other roundUp = Ok 0
  /\ getAmountByShare amount other 0 roundUp = Ok 0.
Proof.
  split; reflexivity.
Qed.

(** C5: the code under the [roundUp] flag does not round up.  With amount 1,
    total 4 and supply 1 the exact quotient is 1/4, whose ceiling is 1, but
    [getShareByAmount] and [getAmountByShare] return 0 (the nearest integer),
    and [computeActualInAmount] yields (0, 0) for a deposit of one pool token
    into a pool of four. *)
Theorem roundUp_flag_rounds_down_below_half :
  getShareByAmount 1 4 1 true = Ok 0
  /\ getAmountByShare 1 1 4 true = Ok 0
  /\ computeActualInAmount 1 4 1 1 4 4 1 1 = Ok (0, 0)
  /\ ceilingDiv (1 * 1) 4 = 1.
Proof.
  repeat split.
Qed.

(** ** Depeg classification *)

Section DepegFacts.

Context {VaultState DepegAccounts : Type}.

Implicit Type this : @AmmImpl VaultState DepegAccounts.

Lemma depegToken_constantProduct this :
  isStablePool this = false -> depegToken this = Ok None.
Proof.
  unfold isStablePool, depegToken.
  destruct (curveType (poolState this)); [reflexivity | discriminate].
Qed.

(** What the code decides on a stable pool with non-negative amounts and a
    positive normalized total: a token is returned as soon as twice its raw
    amount reaches the normalized total. *)
Lemma depegToken_stable_threshold this amp tm :
  curveType (poolState this) = stable amp tm ->
  0 <= tokenAAmount (poolInfo this) ->
  0 <= tokenBAmount (poolInfo this) ->
  let total := tokenAAmount (poolInfo this) * tokenAMultiplier tm
               + tokenBAmount (poolInfo this) * tokenBMultiplier tm in
  0 < total ->
  depegToken this
  = Ok (if total <=? 2 * tokenAAmount (poolInfo this) then Some (tokenA this)
        else if total <=? 2 * tokenBAmount (poolInfo this) then Some (tokenB this)
        else None).
Proof.
  intros Hc Ha Hb total Ht. unfold depegToken. rewrite Hc.
  unfold BN.add, BN.mul. fold total.
  assert (Hz : BN.isZero total = false) by (apply isZero_false; lia).
  rewrite Hz.
  assert (Hflag : forall x, 0 <= x ->
            BN.gt (x * 2 / total * 100) 95 = (total <=? 2 * x)).
  { intros x Hx. unfold BN.gt. destruct (total <=? 2 * x) eqn:Hle.
    - apply Z.leb_le in Hle.
      assert (1 <= x * 2 / total) by (apply Z.div_le_lower_bound; lia).
      apply Z.gtb_lt. lia.
    - apply Z.leb_gt in Hle.
      rewrite Z.div_small by lia. reflexivity. }
  rewrite div_floor by lia. simpl bind.
  rewrite div_floor by lia. simpl bind.
  rewrite (Hflag _ Ha), (Hflag _ Hb).
  destruct (total <=? 2 * tokenAAmount (poolInfo this)); [reflexivity |].
  destruct (total <=? 2 * tokenBAmount (poolInfo this)); reflexivity.
Qed.

(** C10: [depegToken] never fails.  It returns null on a pool that is not
    stable and on a stable pool whose multiplier-normalized total is zero,
    and the zero test guards both divisions, so every call returns. *)
Theorem depegToken_never_fails this :
  succeeds (depegToken this)
  /\ (isStablePool this = false -> depegToken this = Ok None)
  /\ (forall amp tm,
        curveType (poolState this) = stable amp tm ->
        BN.add (BN.mul (tokenAAmount (poolInfo this)) (tokenAMultiplier tm))
               (BN.mul (tokenBAmount (poolInfo this)) (tokenBMultiplier tm)) = 0 ->
        depegToken this = Ok None).
Proof.
  split; [| split].
  - unfold succeeds, depegToken.
    destruct (curveType (poolState this)) as [| amp tm].
    + eexists; reflexivity.
    + cbv zeta. unfold BN.div.
      destruct (BN.isZero (BN.add _ _)) eqn:Hz.
      * eexists; reflexivity.
      * simpl bind.
        destruct (BN.gt _ 95); [eexists; reflexivity |].
        destruct (BN.gt _ 95); eexists; reflexivity.
  - apply depegToken_constantProduct.
  - intros amp tm Hc Hzero. unfold depegToken. rewrite Hc. cbv zeta.
    rewrite Hzero. reflexivity.
Qed.

End DepegFacts.

Lemma depegToken_never_fails_witness :
  depegToken Sample.emptyPool = Ok None /\ depegToken Sample.emptyStable = Ok None.
Proof.
  split.
  - apply (proj1 (proj2 (depegToken_never_fails Sample.emptyPool))). reflexivity.
  - apply (proj2 (proj2 (depegToken_never_fails Sample.emptyStable))
             100 (Sample.multipliers 1 1)); reflexivity.
Defined.

(** C3: the code does not classify by a 95% share.  A stable pool holding 50
    of each token (multipliers 1 and 1) has token A at half of the total
    value, yet [depegToken] returns token A; a stable pool holding 96 of A and
    4 of B with multipliers 10 and 1 has token A at 960 of 964, above 95%, yet
    [depegToken] returns null. *)
Theorem depegToken_ignores_95_percent_share :
  (shareExceeds95Percent (50 * 1) (50 * 1 + 50 * 1) = false
   /\ depegToken Sample.balancedStable = Ok (Some (tokenA Sample.balancedStable)))
  /\ (shareExceeds95Percent (96 * 10) (96 * 10 + 4 * 1) = true
      /\ depegToken Sample.skewedStable = Ok None).
Proof.
  repeat split.
Qed.

(** ** Swap quote *)

Section SwapQuoteFacts.

Context {VaultState DepegAccounts Decimal : Type}.

Variable calculateSwapQuote :
  PublicKey -> BN -> @SwapQuoteParam VaultState DepegAccounts
  -> option (BN * BN * Decimal).

Implicit Type this : @AmmImpl VaultState DepegAccounts.

(** A swap quote carries the amount and fee computed by
    [calculateSwapQuote]; its minimum is derived from the amount alone. *)
Lemma getSwapQuote_inv this inTokenMint inAmountLamport slippage quote :
  getSwapQuote calculateSwapQuote this inTokenMint inAmountLamport slippage
  = Ok quote ->
  swapInAmount quote = inAmountLamport
  /\ minSwapOutAmount quote
     = getMinAmountWithSlippage (swapOutAmount quote) slippage.
Proof.
  unfold getSwapQuote. intros H.
  apply bind_succeeds in H. destruct H as [now [_ H]].
  apply bind_succeeds in H. destruct H as [[[amountOut fee'] impact] [_ H]].
  injection H as <-. split; reflexivity.
Qed.

(** When the clock fits a JavaScript number and [calculateSwapQuote] returns,
    the quote is produced. *)
Lemma getSwapQuote_produces
  this inTokenMint inAmountLamport slippage (now : Z) (amountOut fee' : BN)
  (impact : Decimal) :
  BN.toNumber (currentTime (accountsInfo this)) = Ok now ->
  calculateSwapQuote inTokenMint inAmountLamport
    {| param_currentTime := now;
       param_poolState := poolState this;
       param_depegAccounts := depegAccounts this;
       param_poolVaultALp := poolVaultALp (accountsInfo this);
       param_poolVaultBLp := poolVaultBLp (accountsInfo this);
       param_vaultA := vaultState (vaultA this);
       param_vaultB := vaultState (vaultB this);
       param_vaultALpSupply := vaultALpSupply (accountsInfo this);
       param_vaultBLpSupply := vaultBLpSupply (accountsInfo this);
       param_vaultAReserve := vaultAReserve (accountsInfo this);
       param_vaultBReserve := vaultBReserve (accountsInfo this) |}
  = Some (amountOut, fee', impact) ->
  getSwapQuote calculateSwapQuote this inTokenMint inAmountLamport slippage
  = Ok {| swapInAmount := inAmountLamport;
          swapOutAmount := amountOut;
          minSwapOutAmount := getMinAmountWithSlippage amountOut slippage;
          fee := fee';
          priceImpact := impact |}.
Proof.
  intros Hnow Hcalc. unfold getSwapQuote.
  rewrite Hnow, bind_Ok, Hcalc. reflexivity.
Qed.

(** C1: every swap quote produced by [getSwapQuote] has
    [minSwapOutAmount = swapOutAmount * (10000 - slippageBps) / 10000] in
    integer arithmetic (the truncating quotient of bn.js, which is the floor
    for a non-negative output and a slippage of at most 10000 basis points),
    and [minSwapOutAmount <= swapOutAmount] for a non-negative output and a
    non-negative slippage. *)
Theorem getSwapQuote_slippage_bound
  this inTokenMint inAmountLamport slippageBps quote :
  getSwapQuote calculateSwapQuote this inTokenMint inAmountLamport slippageBps
  = Ok quote ->
  minSwapOutAmount quote
  = Z.quot (swapOutAmount quote * (10000 - slippageBps)) 10000
  /\ (0 <= swapOutAmount quote -> 0 <= slippageBps ->
      minSwapOutAmount quote <= swapOutAmount quote)
  /\ (0 <= swapOutAmount quote -> slippageBps <= 10000 ->
      minSwapOutAmount quote
      = swapOutAmount quote * (10000 - slippageBps) / 10000).
Proof.
  intros Hq.
  destruct (getSwapQuote_inv _ _ _ _ Hq) as [_ Hmin].
  rewrite Hmin. split; [reflexivity | split].
  - intros Hout Hs. apply getMinAmountWithSlippage_le; assumption.
  - intros Hout Hle. unfold getMinAmountWithSlippage, BN.mul.
    apply Z.quot_div_nonneg; nia.
Qed.

End SwapQuoteFacts.

Lemma getSwapQuote_slippage_bound_witness :
  let quote := {| swapInAmount := 10000; swapOutAmount := 9900;
                  minSwapOutAmount := 9850; fee := 25; priceImpact := tt |} in
  getSwapQuote Sample.swapQuote Sample.fundedPool Sample.mintA 10000 50 = Ok quote
  /\ minSwapOutAmount quote = Z.quot (swapOutAmount quote * (10000 - 50)) 10000
  /\ minSwapOutAmount quote <= swapOutAmount quote
  /\ minSwapOutAmount quote = swapOutAmount quote * (10000 - 50) / 10000.
Proof.
  intros quote.
  assert (Hq : getSwapQuote Sample.swapQuote Sample.fundedPool Sample.mintA
                 10000 50 = Ok quote) by reflexivity.
  destruct (getSwapQuote_slippage_bound Sample.swapQuote Sample.fundedPool
              Sample.mintA 10000 50 Hq) as [Heq [Hle Hfloor]].
  split; [exact Hq | split; [exact Heq | split]].
  - apply Hle; simpl; lia.
  - apply Hfloor; simpl; lia.
Defined.

(** ** Deposit quote *)

Section DepositQuoteFacts.

Context {VaultState DepegAccounts : Type}.

Variable UNLOCK_AMOUNT_BUFFER : Z.
Variable calculateWithdrawableAmount : Z -> VaultState -> BN.
Variable computeActualDepositAmount : BN -> BN -> BN -> BN -> BN -> option BN.
Variable getMaxAmountWithSlippage : BN -> Z -> BN.

Implicit Type this : @AmmImpl VaultState DepegAccounts.

Local Abbreviation depositQuote :=
  (getDepositQuote UNLOCK_AMOUNT_BUFFER calculateWithdrawableAmount
     computeActualDepositAmount getMaxAmountWithSlippage).

(** The two precondition checks on their own. *)
Lemma constantProduct_check this (a b : BN) :
  negb (negb (isStablePool this) && negb (BN.isZero a) && negb (BN.isZero b)
        && negb (BN.isZero (poolLpSupply (accountsInfo this)))) = false
  <-> isStablePool this = false /\ a <> 0 /\ b <> 0
      /\ poolLpSupply (accountsInfo this) <> 0.
Proof.
  rewrite <- !isZero_false.
  destruct (isStablePool this), (BN.isZero a), (BN.isZero b),
    (BN.isZero (poolLpSupply (accountsInfo this))); simpl; intuition congruence.
Qed.

Lemma balance_check (a b : BN) (balance : bool) :
  negb (negb (BN.isZero a) && negb (BN.isZero b) && balance) = false
  <-> a <> 0 /\ b <> 0 /\ balance = true.
Proof.
  rewrite <- !isZero_false.
  destruct (BN.isZero a), (BN.isZero b), balance; simpl; intuition congruence.
Qed.

(** C2, as the code has it: on a snapshot with [poolLpSupply = 0], and
    unless both amounts are non-zero while the balance flag is set,
    [getDepositQuote] takes the bootstrap branch: the minted amount and its
    minimum are both [computeD tokenAInAmount tokenBInAmount], without any
    slippage adjustment, and both input amounts are returned unchanged (the
    call fails only if [computeD] does). *)
Theorem getDepositQuote_bootstrap this (a b : BN) (balance : bool) (slippage : Z) :
  poolLpSupply (accountsInfo this) = 0 ->
  ~ (a <> 0 /\ b <> 0 /\ balance = true) ->
  depositQuote this a b balance slippage
  = (d <- external (computeD (swapCurve this) a b) ;;
     Ok {| poolTokenAmountOut := d; minPoolTokenAmountOut := d;
           tokenAInAmount := a; tokenBInAmount := b |}).
Proof.
  intros Hlp Hbal. unfold getDepositQuote. rewrite Hlp.
  change (BN.isZero 0) with true. simpl negb at 3.
  rewrite andb_false_r. simpl invariant. rewrite bind_Ok.
  destruct (negb (negb (BN.isZero a) && negb (BN.isZero b) && balance)) eqn:Hc.
  - reflexivity.
  - apply balance_check in Hc. contradiction.
Qed.

(** The balanced deposit quote of a stable pool with liquidity divides by
    the pool amount of the deposited token without testing it. *)
Lemma stable_balanced_deposit_empty_side this (b : BN) (slippage now : Z) :
  isStablePool this = true ->
  poolLpSupply (accountsInfo this) <> 0 ->
  BN.toNumber (currentTime (accountsInfo this)) = Ok now ->
  tokenBAmount (poolInfo this) = 0 ->
  depositQuote this 0 b true slippage = Err AssertionFailed.
Proof.
  intros Hstable Hlp Hnow Hzero. unfold getDepositQuote.
  apply isZero_false in Hlp. rewrite Hstable, Hlp, Hnow, Hzero.
  reflexivity.
Qed.

(** X24: [getDepositQuote] ends in an invariant failure in exactly two
    cases: with the constant-product message when the pool is
    constant-product, liquidity exists and both amounts are non-zero, and
    otherwise with the balance message when both amounts are non-zero while
    the balance flag is set; on every other input neither precondition check
    fires and the call does not end in an invariant failure. *)
Theorem getDepositQuote_preconditions
  this (a b : BN) (balance : bool) (slippage : Z) :
  let constantProductDual :=
    isStablePool this = false /\ a <> 0 /\ b <> 0
    /\ poolLpSupply (accountsInfo this) <> 0 in
  let balancedDual := a <> 0 /\ b <> 0 /\ balance = true in
  (constantProductDual ->
   depositQuote this a b balance slippage
   = Err (InvariantViolation "Constant product only supports balanced deposit"))
  /\ (~ constantProductDual -> balancedDual ->
      depositQuote this a b balance slippage
      = Err (InvariantViolation
               "Deposit balance is not possible when both token in amount is non-zero"))
  /\ (~ constantProductDual -> ~ balancedDual ->
      ~ raisesInvariant (depositQuote this a b balance slippage)).
Proof.
  intros constantProductDual balancedDual.
  pose proof (constantProduct_check this a b) as Hcp.
  pose proof (balance_check a b balance) as Hbal.
  unfold getDepositQuote.
  destruct (negb (negb (isStablePool this) && negb (BN.isZero a)
                  && negb (BN.isZero b)
                  && negb (BN.isZero (poolLpSupply (accountsInfo this)))))
    eqn:Hc1.
  - assert (Hncp : ~ constantProductDual).
    { intros H. apply Hcp in H. discriminate H. }
    split; [intros H; contradiction |].
    simpl invariant. rewrite bind_Ok.
    destruct (negb (negb (BN.isZero a) && negb (BN.isZero b) && balance)) eqn:Hc2.
    + assert (Hnbal : ~ balancedDual).
      { intros H. apply Hbal in H. discriminate H. }
      split; [intros _ H; contradiction |].
      intros _ _. simpl invariant. rewrite bind_Ok.
      no_invariant.
    + split; [intros _ _; reflexivity |].
      intros _ H. exfalso. apply H. apply Hbal. reflexivity.
  - split; [intros _; reflexivity |].
    split; intros H; exfalso; apply H; apply Hcp; reflexivity.
Qed.

End DepositQuoteFacts.

Lemma getDepositQuote_bootstrap_witness :
  getDepositQuote 20 Sample.withdrawable Sample.actualDeposit
    Sample.maxWithSlippage Sample.emptyPool 4 9 false 50
  = Ok {| poolTokenAmountOut := 6; minPoolTokenAmountOut := 6;
          tokenAInAmount := 4; tokenBInAmount := 9 |}.
Proof.
  rewrite (getDepositQuote_bootstrap 20 Sample.withdrawable Sample.actualDeposit
             Sample.maxWithSlippage Sample.emptyPool (a := 4) (b := 9)
             (balance := false) 50).
  - reflexivity.
  - reflexivity.
  - intros [_ [_ H]]. discriminate H.
Defined.

(** On an empty pool a deposit of (1, 1) with the balance flag set is
    rejected by the second precondition check: no bootstrap quote. *)
Lemma balanced_dual_deposit_rejected_on_empty_pool :
  poolLpSupply (accountsInfo Sample.emptyPool) = 0
  /\ getDepositQuote 20 Sample.withdrawable Sample.actualDeposit
       Sample.maxWithSlippage Sample.emptyPool 1 1 true 50
     = Err (InvariantViolation
              "Deposit balance is not possible when both token in amount is non-zero")
  /\ ~ succeeds (getDepositQuote 20 Sample.withdrawable Sample.actualDeposit
                   Sample.maxWithSlippage Sample.emptyPool 1 1 true 50).
Proof.
  split; [reflexivity | split; [reflexivity |]].
  apply succeeds_not_Err.
Qed.

Lemma getDepositQuote_preconditions_witness :
  getDepositQuote 20 Sample.withdrawable Sample.actualDeposit
    Sample.maxWithSlippage Sample.fundedPool 1000 1000 false 50
  = Err (InvariantViolation "Constant product only supports balanced deposit")
  /\ getDepositQuote 20 Sample.withdrawable Sample.actualDeposit
       Sample.maxWithSlippage Sample.fundedStable 1000 1000 true 50
     = Err (InvariantViolation
              "Deposit balance is not possible when both token in amount is non-zero")
  /\ ~ raisesInvariant
         (getDepositQuote 20 Sample.withdrawable Sample.actualDeposit
            Sample.maxWithSlippage Sample.fundedPool 0 1000 true 50).
Proof.
  split; [| split].
  - apply (proj1 (getDepositQuote_preconditions 20 Sample.withdrawable
                    Sample.actualDeposit Sample.maxWithSlippage
                    Sample.fundedPool 1000 1000 false 50)).
    repeat split; discriminate.
  - apply (proj1 (proj2 (getDepositQuote_preconditions 20 Sample.withdrawable
                           Sample.actualDeposit Sample.maxWithSlippage
                           Sample.fundedStable 1000 1000 true 50))).
    + intros [H _]. discriminate H.
    + repeat split; discriminate.
  - apply (proj2 (proj2 (getDepositQuote_preconditions 20 Sample.withdrawable
                           Sample.actualDeposit Sample.maxWithSlippage
                           Sample.fundedPool 0 1000 true 50))).
    + intros [_ [H _]]. apply H. reflexivity.
    + intros [H _]. apply H. reflexivity.
Defined.

(** C6: passing the two precondition checks does not yield a quote.  For a
    balanced deposit of (0, 5) into a stable pool with liquidity that holds
    1000 of A and nothing of B, both checks of [getDepositQuote] evaluate to
    true, [getShareByAmount] tests the zero pool amount and returns 0, and
    the derived side then divides by the same pool amount without a test, so
    the call fails with a bn.js assertion instead of producing a quote. *)
Theorem deposit_checks_pass_yet_no_quote :
  negb (negb (isStablePool Sample.drainedStable)
        && negb (BN.isZero 0) && negb (BN.isZero 5)
        && negb (BN.isZero (poolLpSupply (accountsInfo Sample.drainedStable))))
  = true
  /\ negb (negb (BN.isZero 0) && negb (BN.isZero 5) && true) = true
  /\ getShareByAmount 5 (tokenBAmount (poolInfo Sample.drainedStable))
       (poolLpSupply (accountsInfo Sample.drainedStable)) false
     = Ok 0
  /\ BN.div (BN.mul 5 (tokenAAmount (poolInfo Sample.drainedStable)))
       (tokenBAmount (poolInfo Sample.drainedStable))
     = Err AssertionFailed
  /\ getDepositQuote 20 Sample.withdrawable Sample.actualDeposit
       Sample.maxWithSlippage Sample.drainedStable 0 5 true 50
     = Err AssertionFailed.
Proof.
  repeat split.
Qed.

(** C9: ratio divisions outside the share converter fail on a zero
    denominator.  On a stable pool with liquidity whose B side is empty, the
    balanced deposit quote for (0, 5) divides by the pool's B amount and
    fails, and symmetrically for (5, 0) on a pool whose A side is empty; on a
    stable pool whose vault B has nothing withdrawable, the single-sided
    withdraw quote for token B divides by the withdrawable amount and fails. *)
Theorem zero_denominator_ratio_fails :
  getDepositQuote 20 Sample.withdrawable Sample.actualDeposit
    Sample.maxWithSlippage Sample.drainedStable 0 5 true 50
  = Err AssertionFailed
  /\ getDepositQuote 20 Sample.withdrawable Sample.actualDeposit
       Sample.maxWithSlippage Sample.drainedStableA 5 0 true 50
     = Err AssertionFailed
  /\ getWithdrawQuote "Invalid mint" Sample.withdrawable Sample.emptyVaultStable
       10 50 (Some Sample.mintB)
     = Err AssertionFailed.
Proof.
  repeat split.
Qed.

(** ** Maximum swap-in estimate *)

Lemma equals_refl (key : PublicKey) : equals key key = true.
Proof. apply String.eqb_refl. Qed.

Lemma equals_neq (a b : PublicKey) : a <> b -> equals a b = false.
Proof. apply String.eqb_neq. Qed.

Section MaxSwapFacts.

Context {VaultState DepegAccounts : Type}.

Variable ERROR_INVALID_MINT : string.
Variable calculateMaxSwapOutAmount :
  PublicKey -> PublicKey -> PublicKey -> BN -> BN -> BN -> BN -> option BN.

Implicit Type this : @AmmImpl VaultState DepegAccounts.

Local Abbreviation maxSwapIn :=
  (getMaxSwapInAmount ERROR_INVALID_MINT calculateMaxSwapOutAmount).

Lemma getMaxSwapInAmount_invalid_mint this (tokenMint : PublicKey) :
  tokenMint <> tokenAMint (poolState this) ->
  tokenMint <> tokenBMint (poolState this) ->
  maxSwapIn this tokenMint = Err (InvariantViolation ERROR_INVALID_MINT).
Proof.
  intros Ha Hb. unfold getMaxSwapInAmount.
  rewrite (equals_neq Ha), (equals_neq Hb). reflexivity.
Qed.

(** The body of [getMaxSwapInAmount] once the sides are chosen. *)
Lemma getMaxSwapInAmount_sides
  this (tokenMint outMint : PublicKey) (source dest : BN)
  (direction : TradeDirection) (maxOut maxIn adminFee tradeFee : BN) :
  equals tokenMint (tokenAMint (poolState this))
  || equals tokenMint (tokenBMint (poolState this)) = true ->
  (if equals tokenMint (tokenAMint (poolState this))
   then (tokenBMint (poolState this), tokenAAmount (poolInfo this),
         tokenBAmount (poolInfo this), AToB)
   else (tokenAMint (poolState this), tokenBAmount (poolInfo this),
         tokenAAmount (poolInfo this), BToA))
  = (outMint, source, dest, direction) ->
  calculateMaxSwapOutAmount outMint
    (tokenAMint (poolState this)) (tokenBMint (poolState this))
    (tokenAAmount (poolInfo this)) (tokenBAmount (poolInfo this))
    (vaultAReserve (accountsInfo this)) (vaultBReserve (accountsInfo this))
  = Some maxOut ->
  computeInAmount (swapCurve this)
    (if maxOut =? dest then dest - 1 else maxOut) source dest direction
  = Some maxIn ->
  calculateAdminTradingFee this maxIn = Ok adminFee ->
  calculateTradingFee this maxIn = Ok tradeFee ->
  maxSwapIn this tokenMint = Ok (maxIn - adminFee - tradeFee).
Proof.
  intros Hpair Hsides Hout Hin Hadmin Htrade.
  unfold getMaxSwapInAmount. rewrite Hpair. simpl invariant. rewrite bind_Ok.
  rewrite Hsides. cbv beta iota zeta.
  unfold getMaxSwapOutAmount. rewrite Hout.
  simpl external. rewrite bind_Ok.
  replace (if BN.eq maxOut dest then BN.sub maxOut 1 else maxOut)
    with (if maxOut =? dest then dest - 1 else maxOut).
  - unfold BN.t in *. rewrite Hin. simpl external. rewrite bind_Ok.
    rewrite Hadmin, bind_Ok, Htrade, bind_Ok. reflexivity.
  - unfold BN.eq, BN.sub. destruct (maxOut =? dest) eqn:He; [| reflexivity].
    apply Z.eqb_eq in He. rewrite He. reflexivity.
Qed.

(** Both fees are the truncated share [amount * numerator / denominator]. *)
Lemma calculateTradingFee_value this (amount : BN) :
  tradeFeeDenominator (fees (poolState this)) <> 0 ->
  calculateTradingFee this amount
  = Ok (Z.quot (amount * tradeFeeNumerator (fees (poolState this)))
               (tradeFeeDenominator (fees (poolState this)))).
Proof. intros H. unfold calculateTradingFee. apply div_nonzero. exact H. Qed.

Lemma calculateAdminTradingFee_value this (amount : BN) :
  ownerTradeFeeDenominator (fees (poolState this)) <> 0 ->
  calculateAdminTradingFee this amount
  = Ok (Z.quot (amount * ownerTradeFeeNumerator (fees (poolState this)))
               (ownerTradeFeeDenominator (fees (poolState this)))).
Proof. intros H. unfold calculateAdminTradingFee. apply div_nonzero. exact H. Qed.

(** C7: for a mint outside the pool's pair [getMaxSwapInAmount] fails with
    the invalid-mint message.  For a mint of the pair, with [dest] the pool
    amount of the other token, the maximum output handed to the curve is the
    value of [calculateMaxSwapOutAmount] lowered to [dest - 1] when it
    equals [dest] (so it never equals [dest], and it is at most [dest - 1]
    whenever the helper returns at most [dest]); the input is
    [computeInAmount] of that output, and the result is that input minus
    the admin trading fee minus the trading fee, both taken on the input. *)
Theorem getMaxSwapInAmount_estimate this (tokenMint : PublicKey) :
  (tokenMint <> tokenAMint (poolState this) ->
   tokenMint <> tokenBMint (poolState this) ->
   maxSwapIn this tokenMint = Err (InvariantViolation ERROR_INVALID_MINT))
  /\ (forall (outMint : PublicKey) (source dest : BN) (direction : TradeDirection)
             (maxOut maxIn adminFee tradeFee : BN),
        (tokenMint = tokenAMint (poolState this)
         /\ outMint = tokenBMint (poolState this)
         /\ source = tokenAAmount (poolInfo this)
         /\ dest = tokenBAmount (poolInfo this)
         /\ direction = AToB)
        \/ (tokenMint <> tokenAMint (poolState this)
            /\ tokenMint = tokenBMint (poolState this)
            /\ outMint = tokenAMint (poolState this)
            /\ source = tokenBAmount (poolInfo this)
            /\ dest = tokenAAmount (poolInfo this)
            /\ direction = BToA) ->
        calculateMaxSwapOutAmount outMint
          (tokenAMint (poolState this)) (tokenBMint (poolState this))
          (tokenAAmount (poolInfo this)) (tokenBAmount (poolInfo this))
          (vaultAReserve (accountsInfo this)) (vaultBReserve (accountsInfo this))
        = Some maxOut ->
        let cappedOut := if maxOut =? dest then dest - 1 else maxOut in
        computeInAmount (swapCurve this) cappedOut source dest direction
        = Some maxIn ->
        calculateAdminTradingFee this maxIn = Ok adminFee ->
        calculateTradingFee this maxIn = Ok tradeFee ->
        cappedOut <> dest
        /\ (maxOut <= dest -> cappedOut <= dest - 1)
        /\ maxSwapIn this tokenMint = Ok (maxIn - adminFee - tradeFee)).
Proof.
  split; [apply getMaxSwapInAmount_invalid_mint |].
  intros outMint source dest direction maxOut maxIn adminFee tradeFee
    Hside Hout cappedOut Hin Hadmin Htrade.
  split; [| split].
  - subst cappedOut. destruct (maxOut =? dest) eqn:He.
    + lia.
    + apply Z.eqb_neq in He. exact He.
  - intros Hle. subst cappedOut. destruct (maxOut =? dest) eqn:He.
    + lia.
    + apply Z.eqb_neq in He. lia.
  - apply getMaxSwapInAmount_sides
      with (outMint := outMint) (source := source) (dest := dest)
           (direction := direction) (maxOut := maxOut); try assumption.
    + destruct Hside as [[Hm _] | [_ [Hm _]]]; rewrite Hm, equals_refl.
      * reflexivity.
      * apply orb_true_r.
    + destruct Hside as [[Hm [Ho [Hs [Hd Hdir]]]] | [Hn [Hm [Ho [Hs [Hd Hdir]]]]]].
      * rewrite Hm, equals_refl. congruence.
      * rewrite (equals_neq Hn). congruence.
Qed.

End MaxSwapFacts.

Lemma getMaxSwapInAmount_estimate_witness :
  getMaxSwapInAmount "Invalid mint" Sample.maxSwapOut Sample.fundedPool Sample.mintC
  = Err (InvariantViolation "Invalid mint")
  /\ (1499999 <> 1500000
      /\ (1500000 <= 1500000 -> 1499999 <= 1500000 - 1)
      /\ getMaxSwapInAmount "Invalid mint" Sample.maxSwapOut Sample.fundedPool
           Sample.mintA
         = Ok (2249998500001 - 1124999250 - 5624996250)).
Proof.
  split.
  - apply (proj1 (getMaxSwapInAmount_estimate "Invalid mint" Sample.maxSwapOut
                    Sample.fundedPool Sample.mintC)); discriminate.
  - apply (proj2 (getMaxSwapInAmount_estimate "Invalid mint" Sample.maxSwapOut
                    Sample.fundedPool Sample.mintA)
             Sample.mintB 1500000 1500000 AToB 1500000 2249998500001
             1124999250 5624996250).
    + left. repeat split.
    + reflexivity.
    + reflexivity.
    + reflexivity.
    + reflexivity.
Defined.

(** ** Withdraw quote *)

Section WithdrawQuoteFacts.

Context {VaultState DepegAccounts : Type}.

Variable ERROR_INVALID_MINT : string.
Variable calculateWithdrawableAmount : Z -> VaultState -> BN.

Implicit Type this : @AmmImpl VaultState DepegAccounts.

Local Abbreviation withdrawQuote :=
  (getWithdrawQuote ERROR_INVALID_MINT calculateWithdrawableAmount).

(** The two divisions of the vault round trip. *)
Lemma vault_round_trip (outAmount vaultLpSupply vaultTotalAmount : BN) :
  0 <= outAmount -> 0 < vaultLpSupply -> 0 < vaultTotalAmount ->
  (vaultLpToBurn <- BN.div (BN.mul outAmount vaultLpSupply) vaultTotalAmount ;;
   BN.div (BN.mul vaultLpToBurn vaultTotalAmount) vaultLpSupply)
  = Ok (outAmount * vaultLpSupply / vaultTotalAmount * vaultTotalAmount
        / vaultLpSupply).
Proof.
  intros Ho Hs Ht. unfold BN.mul.
  rewrite div_floor by nia. rewrite bind_Ok.
  apply div_floor; [| exact Hs].
  apply Z.mul_nonneg_nonneg; [| lia].
  apply Z.div_pos; nia.
Qed.

(** The single-sided withdraw quote divides by the withdrawable amount of the
    destination vault without testing it. *)
Lemma single_sided_withdraw_empty_vault
  this (withdrawTokenAmount : BN) (slippage now : Z) (outAmount : BN) :
  address (tokenB this) = tokenBMint (poolState this) ->
  tokenAMint (poolState this) <> tokenBMint (poolState this) ->
  BN.toNumber (currentTime (accountsInfo this)) = Ok now ->
  computeWithdrawOne (swapCurve this) withdrawTokenAmount
    (poolLpSupply (accountsInfo this))
    (tokenAAmount (poolInfo this)) (tokenBAmount (poolInfo this))
    (fees (poolState this)) AToB
  = Some outAmount ->
  calculateWithdrawableAmount now (vaultState (vaultB this)) = 0 ->
  withdrawQuote this withdrawTokenAmount slippage
    (Some (tokenBMint (poolState this)))
  = Err AssertionFailed.
Proof.
  intros HB Hdistinct Hnow Hone Hzero.
  assert (Hne : tokenBMint (poolState this) <> tokenAMint (poolState this))
    by congruence.
  unfold getWithdrawQuote. rewrite Hnow, !bind_Ok, HB.
  rewrite equals_refl, (equals_neq Hne), orb_true_r.
  simpl invariant. rewrite bind_Ok, Hone. simpl external. rewrite bind_Ok.
  simpl TradeDirection_eqb. cbv beta iota zeta. rewrite Hzero.
  reflexivity.
Qed.

(** C8: on a pool whose token infos name its two distinct mints, a
    single-sided withdraw quote for a mint of the pool takes the nominal
    output [outAmount] of [computeWithdrawOne] through the share price of
    the destination vault: the quoted output is
    [floor (floor (outAmount * vaultLpSupply / vaultTotalAmount)
            * vaultTotalAmount / vaultLpSupply)],
    it is at most [outAmount], and the quote gives it, with its slippage
    minimum, to the requested token and zero to the other. *)
Theorem getWithdrawQuote_single_sided
  this (withdrawTokenAmount : BN) (slippage : Z) (tokenMint : PublicKey)
  (now : Z) (direction : TradeDirection)
  (vaultLpSupply vaultTotalAmount outAmount : BN) :
  address (tokenA this) = tokenAMint (poolState this) ->
  address (tokenB this) = tokenBMint (poolState this) ->
  tokenAMint (poolState this) <> tokenBMint (poolState this) ->
  BN.toNumber (currentTime (accountsInfo this)) = Ok now ->
  (tokenMint = tokenAMint (poolState this)
   /\ direction = BToA
   /\ vaultLpSupply = vaultALpSupply (accountsInfo this)
   /\ vaultTotalAmount = calculateWithdrawableAmount now (vaultState (vaultA this)))
  \/ (tokenMint = tokenBMint (poolState this)
      /\ direction = AToB
      /\ vaultLpSupply = vaultBLpSupply (accountsInfo this)
      /\ vaultTotalAmount
         = calculateWithdrawableAmount now (vaultState (vaultB this))) ->
  computeWithdrawOne (swapCurve this) withdrawTokenAmount
    (poolLpSupply (accountsInfo this))
    (tokenAAmount (poolInfo this)) (tokenBAmount (poolInfo this))
    (fees (poolState this)) direction
  = Some outAmount ->
  0 <= outAmount -> 0 < vaultLpSupply -> 0 < vaultTotalAmount ->
  let realOutAmount :=
    outAmount * vaultLpSupply / vaultTotalAmount * vaultTotalAmount
    / vaultLpSupply in
  let minRealOutAmount := getMinAmountWithSlippage realOutAmount slippage in
  realOutAmount <= outAmount
  /\ withdrawQuote this withdrawTokenAmount slippage (Some tokenMint)
     = Ok (if equals tokenMint (tokenAMint (poolState this))
           then {| poolTokenAmountIn := withdrawTokenAmount;
                   tokenAOutAmount := realOutAmount;
                   tokenBOutAmount := 0;
                   minTokenAOutAmount := minRealOutAmount;
                   minTokenBOutAmount := 0 |}
           else {| poolTokenAmountIn := withdrawTokenAmount;
                   tokenAOutAmount := 0;
                   tokenBOutAmount := realOutAmount;
                   minTokenAOutAmount := 0;
                   minTokenBOutAmount := minRealOutAmount |}).
Proof.
  intros HA HB Hdistinct Hnow Hside Hone Hout Hsupply Htotal
    realOutAmount minRealOutAmount.
  split; [apply share_round_trip_le; assumption |].
  pose proof (vault_round_trip Hout Hsupply Htotal) as Htrip.
  fold realOutAmount in Htrip.
  unfold getWithdrawQuote. rewrite Hnow, !bind_Ok. rewrite HA, HB.
  destruct Hside as [[Hm [Hd [Hs Ht]]] | [Hm [Hd [Hs Ht]]]].
  - rewrite Hm, equals_refl, (equals_neq Hdistinct).
    simpl invariant. rewrite bind_Ok.
    rewrite <- Hd, Hone. simpl external. rewrite bind_Ok.
    rewrite Hd. simpl TradeDirection_eqb. cbv beta iota zeta.
    rewrite <- Hs, <- Ht.
    apply bind_succeeds_eq with (a := realOutAmount); [| reflexivity].
    exact Htrip.
  - assert (Hne : tokenBMint (poolState this) <> tokenAMint (poolState this))
      by congruence.
    rewrite Hm, equals_refl, (equals_neq Hne).
    simpl invariant. rewrite bind_Ok.
    rewrite <- Hd, Hone. simpl external. rewrite bind_Ok.
    rewrite Hd. simpl TradeDirection_eqb. cbv beta iota zeta.
    rewrite <- Hs, <- Ht.
    apply bind_succeeds_eq with (a := realOutAmount); [| reflexivity].
    exact Htrip.
Qed.

End WithdrawQuoteFacts.

Lemma getWithdrawQuote_single_sided_witness :
  1500 <= 1501
  /\ getWithdrawQuote "Invalid mint" Sample.withdrawable Sample.fundedPool
       1001 50 (Some Sample.mintB)
     = Ok {| poolTokenAmountIn := 1001;
             tokenAOutAmount := 0;
             tokenBOutAmount := 1500;
             minTokenAOutAmount := 0;
             minTokenBOutAmount := 1492 |}.
Proof.
  apply (getWithdrawQuote_single_sided "Invalid mint" Sample.withdrawable
           Sample.fundedPool 1001 50 (tokenMint := Sample.mintB)
           (now := 1700000000) (direction := AToB)
           (vaultLpSupply := 2000000) (vaultTotalAmount := 3000000)
           (outAmount := 1501)).
  - reflexivity.
  - reflexivity.
  - discriminate.
  - reflexivity.
  - right. repeat split.
  - reflexivity.
  - lia.
  - lia.
  - lia.
Defined.

(** ** The share converter as a whole *)

Lemma bind_preserves_succeeds {A B : Type} (c : result A) (k : A -> result B) :
  succeeds c -> (forall a, succeeds (k a)) -> succeeds (bind c k).
Proof.
  intros [a Ha] Hk. rewrite Ha. apply Hk.
Qed.

Lemma Ok_succeeds {A : Type} (a : A) : succeeds (Ok a).
Proof. exists a. reflexivity. Qed.

Lemma div_succeeds (a b : BN) : b <> 0 -> succeeds (BN.div a b).
Proof. intros Hb. rewrite div_nonzero by exact Hb. apply Ok_succeeds. Qed.

Lemma divRound_succeeds (a b : BN) : b <> 0 -> succeeds (BN.divRound a b).
Proof.
  intros Hb. unfold BN.divRound. cbv zeta.
  apply isZero_false in Hb. rewrite Hb.
  repeat match goal with
         | |- context [if ?c then _ else _] => destruct c
         | |- context [match ?c with Eq => _ | Lt => _ | Gt => _ end] => destruct c
         end; apply Ok_succeeds.
Qed.

Lemma getShareByAmount_succeeds (amount tokenAmount lpSupply : BN) (roundUp : bool) :
  succeeds (getShareByAmount amount tokenAmount lpSupply roundUp).
Proof.
  unfold getShareByAmount. destruct (BN.isZero tokenAmount) eqn:Hz.
  - apply Ok_succeeds.
  - apply isZero_false in Hz.
    destruct roundUp; [apply divRound_succeeds | apply div_succeeds]; exact Hz.
Qed.

Lemma getAmountByShare_succeeds (amount tokenAmount lpSupply : BN) (roundUp : bool) :
  succeeds (getAmountByShare amount tokenAmount lpSupply roundUp).
Proof.
  unfold getAmountByShare. destruct (BN.isZero lpSupply) eqn:Hz.
  - apply Ok_succeeds.
  - apply isZero_false in Hz.
    destruct roundUp; [apply divRound_succeeds | apply div_succeeds]; exact Hz.
Qed.

Lemma computeActualInAmount_succeeds (p s la lb sa sb wa wb : BN) :
  succeeds (computeActualInAmount p s la lb sa sb wa wb).
Proof.
  unfold computeActualInAmount.
  repeat (apply bind_preserves_succeeds;
          [first [apply getShareByAmount_succeeds
                 | apply getAmountByShare_succeeds] | intros ?]).
  apply Ok_succeeds.
Qed.

Create HintDb succeeds.

#[local] Hint Resolve Ok_succeeds getShareByAmount_succeeds
  getAmountByShare_succeeds computeActualInAmount_succeeds : succeeds.

(** X2: although every bn.js division can fail, neither converter nor
    [computeActualInAmount] ever does: each division is behind the zero test
    of its own divisor, for both values of the rounding flag. *)
Theorem converter_never_fails
  (amount tokenAmount lpSupply : BN) (roundUp : bool)
  (poolTokenAmount poolLpSupply poolVaultALp poolVaultBLp : BN)
  (vaultALpSupply vaultBLpSupply vaultAWithdrawable vaultBWithdrawable : BN) :
  succeeds (getShareByAmount amount tokenAmount lpSupply roundUp)
  /\ succeeds (getAmountByShare amount tokenAmount lpSupply roundUp)
  /\ succeeds (computeActualInAmount poolTokenAmount poolLpSupply
                 poolVaultALp poolVaultBLp vaultALpSupply vaultBLpSupply
                 vaultAWithdrawable vaultBWithdrawable).
Proof.
  split; [| split]; auto with succeeds.
Qed.

(** X1: on non-negative operands with a positive divisor, the converters
    return the floor of the exact quotient without the flag and the nearest
    integer (ties upwards) with it; the flagged result is the floor or the
    floor plus one. *)
Theorem converter_rounding (amount total other : BN) :
  0 <= amount -> 0 < total -> 0 <= other ->
  let floorQ := amount * other / total in
  let nearestQ := (2 * (amount * other) + total) / (2 * total) in
  getShareByAmount amount total other false = Ok floorQ
  /\ getShareByAmount amount total other true = Ok nearestQ
  /\ getAmountByShare amount other total false = Ok floorQ
  /\ getAmountByShare amount other total true = Ok nearestQ
  /\ floorQ <= nearestQ <= floorQ + 1.
Proof.
  intros Ha Ht Ho floorQ nearestQ.
  split; [apply getShareByAmount_floor; assumption |].
  split; [apply getShareByAmount_roundUp_nearest; assumption |].
  split; [apply getAmountByShare_floor; assumption |].
  split; [apply getAmountByShare_roundUp_nearest; assumption |].
  subst floorQ nearestQ. set (x := amount * other).
  assert (Hx : 0 <= x) by (subst x; nia).
  pose proof (Z.mul_div_le x total Ht) as Hlo.
  pose proof (Z.mul_succ_div_gt x total Ht) as Hhi.
  split.
  - apply Z.div_le_lower_bound; lia.
  - assert ((2 * x + total) / (2 * total) < x / total + 2); [| lia].
    apply Z.div_lt_upper_bound; lia.
Qed.

Lemma converter_rounding_witness :
  getShareByAmount 3 4 1 false = Ok 0
  /\ getShareByAmount 3 4 1 true = Ok 1
  /\ getAmountByShare 3 1 4 false = Ok 0
  /\ getAmountByShare 3 1 4 true = Ok 1
  /\ 0 <= 1 <= 0 + 1.
Proof.
  apply (converter_rounding (amount := 3) (total := 4) (other := 1)); lia.
Defined.

(** ** Balanced withdraw quote *)

Section BalancedWithdrawFacts.

Context {VaultState DepegAccounts : Type}.

Variable ERROR_INVALID_MINT : string.
Variable calculateWithdrawableAmount : Z -> VaultState -> BN.

Implicit Type this : @AmmImpl VaultState DepegAccounts.

Local Abbreviation withdrawQuote :=
  (getWithdrawQuote ERROR_INVALID_MINT calculateWithdrawableAmount).

(** The balanced branch, once the clock has been read. *)
Lemma balanced_withdraw_unfold this (withdrawTokenAmount : BN) (slippage now : Z) :
  BN.toNumber (currentTime (accountsInfo this)) = Ok now ->
  withdrawQuote this withdrawTokenAmount slippage None
  = (vaultALpBurn <-
       getShareByAmount withdrawTokenAmount (poolLpSupply (accountsInfo this))
         (poolVaultALp (accountsInfo this)) false ;;
     vaultBLpBurn <-
       getShareByAmount withdrawTokenAmount (poolLpSupply (accountsInfo this))
         (poolVaultBLp (accountsInfo this)) false ;;
     tokenAOutAmount <-
       getAmountByShare vaultALpBurn
         (calculateWithdrawableAmount now (vaultState (vaultA this)))
         (vaultALpSupply (accountsInfo this)) false ;;
     tokenBOutAmount <-
       getAmountByShare vaultBLpBurn
         (calculateWithdrawableAmount now (vaultState (vaultB this)))
         (vaultBLpSupply (accountsInfo this)) false ;;
     Ok {| poolTokenAmountIn := withdrawTokenAmount;
           tokenAOutAmount := tokenAOutAmount;
           tokenBOutAmount := tokenBOutAmount;
           minTokenAOutAmount := getMinAmountWithSlippage tokenAOutAmount slippage;
           minTokenBOutAmount := getMinAmountWithSlippage tokenBOutAmount slippage |}).
Proof.
  intros Hnow. unfold getWithdrawQuote. rewrite Hnow, !bind_Ok. reflexivity.
Qed.

(** X3: a balanced withdraw quote is produced for every amount, slippage and
    pool state whose clock fits a JavaScript number: none of its four
    conversions can divide by zero. *)
Theorem balanced_withdraw_never_fails
  this (withdrawTokenAmount : BN) (slippage now : Z) :
  BN.toNumber (currentTime (accountsInfo this)) = Ok now ->
  succeeds (withdrawQuote this withdrawTokenAmount slippage None).
Proof.
  intros Hnow. rewrite (balanced_withdraw_unfold _ _ _ Hnow).
  repeat (apply bind_preserves_succeeds; [solve [auto with succeeds] | intros ?]).
  apply Ok_succeeds.
Qed.

Lemma getShareByAmount_of_zero (tokenAmount lpSupply : BN) :
  getShareByAmount 0 tokenAmount lpSupply false = Ok 0.
Proof.
  unfold getShareByAmount, BN.div.
  destruct (BN.isZero tokenAmount); reflexivity.
Qed.

Lemma getAmountByShare_of_zero (tokenAmount lpSupply : BN) :
  getAmountByShare 0 tokenAmount lpSupply false = Ok 0.
Proof.
  unfold getAmountByShare, BN.div.
  destruct (BN.isZero lpSupply); reflexivity.
Qed.

(** X4: withdrawing no liquidity tokens, or withdrawing from a pool whose
    liquidity-token supply is zero, quotes zero for both tokens and for both
    minimums, whatever the vaults hold. *)
Theorem balanced_withdraw_zero
  this (withdrawTokenAmount : BN) (slippage now : Z) :
  BN.toNumber (currentTime (accountsInfo this)) = Ok now ->
  withdrawTokenAmount = 0 \/ poolLpSupply (accountsInfo this) = 0 ->
  withdrawQuote this withdrawTokenAmount slippage None
  = Ok {| poolTokenAmountIn := withdrawTokenAmount;
          tokenAOutAmount := 0; tokenBOutAmount := 0;
          minTokenAOutAmount := 0; minTokenBOutAmount := 0 |}.
Proof.
  intros Hnow Hzero. rewrite (balanced_withdraw_unfold _ _ _ Hnow).
  assert (Hshare : forall shares,
            getShareByAmount withdrawTokenAmount
              (poolLpSupply (accountsInfo this)) shares false = Ok 0).
  { intros shares. destruct Hzero as [Hw | Hlp].
    - rewrite Hw. apply getShareByAmount_of_zero.
    - rewrite Hlp. reflexivity. }
  rewrite !Hshare, !bind_Ok, !getAmountByShare_of_zero, !bind_Ok.
  reflexivity.
Qed.

(** X5: withdrawing the whole liquidity-token supply burns exactly the vault
    shares the pool holds: each quoted amount is the underlying amount of all
    of the pool's shares of that vault. *)
Theorem balanced_withdraw_whole_supply this (slippage now : Z) :
  BN.toNumber (currentTime (accountsInfo this)) = Ok now ->
  poolLpSupply (accountsInfo this) <> 0 ->
  exists quote,
    withdrawQuote this (poolLpSupply (accountsInfo this)) slippage None = Ok quote
    /\ getAmountByShare (poolVaultALp (accountsInfo this))
         (calculateWithdrawableAmount now (vaultState (vaultA this)))
         (vaultALpSupply (accountsInfo this)) false
       = Ok (tokenAOutAmount quote)
    /\ getAmountByShare (poolVaultBLp (accountsInfo this))
         (calculateWithdrawableAmount now (vaultState (vaultB this)))
         (vaultBLpSupply (accountsInfo this)) false
       = Ok (tokenBOutAmount quote).
Proof.
  intros Hnow Hlp. rewrite (balanced_withdraw_unfold _ _ _ Hnow).
  assert (Hshare : forall shares,
            getShareByAmount (poolLpSupply (accountsInfo this))
              (poolLpSupply (accountsInfo this)) shares false = Ok shares).
  { intros shares. unfold getShareByAmount.
    assert (Hz := Hlp). apply isZero_false in Hz. rewrite Hz.
    rewrite div_nonzero by exact Hlp. unfold BN.mul.
    rewrite Z.mul_comm, Z.quot_mul by exact Hlp. reflexivity. }
  rewrite !Hshare, !bind_Ok.
  destruct (getAmountByShare_succeeds (poolVaultALp (accountsInfo this))
              (calculateWithdrawableAmount now (vaultState (vaultA this)))
              (vaultALpSupply (accountsInfo this)) false) as [outA HA].
  destruct (getAmountByShare_succeeds (poolVaultBLp (accountsInfo this))
              (calculateWithdrawableAmount now (vaultState (vaultB this)))
              (vaultBLpSupply (accountsInfo this)) false) as [outB HB].
  rewrite HA, HB, !bind_Ok.
  eexists. split; [reflexivity |]. split; reflexivity.
Qed.

(** The quoted amount for one token, on non-negative holdings. *)
Lemma balanced_leg_value (withdrawTokenAmount lp shares withdrawable supply : BN) :
  0 <= withdrawTokenAmount -> 0 < lp -> 0 <= shares ->
  0 <= withdrawable -> 0 < supply ->
  (burn <- getShareByAmount withdrawTokenAmount lp shares false ;;
   getAmountByShare burn withdrawable supply false)
  = Ok (withdrawTokenAmount * shares / lp * withdrawable / supply).
Proof.
  intros Hw Hlp Hs Hwd Hsup.
  rewrite getShareByAmount_floor by assumption. rewrite bind_Ok.
  apply getAmountByShare_floor; try assumption.
  apply Z.div_pos; nia.
Qed.

Lemma balanced_leg_bounds (w lp shares withdrawable supply : Z) :
  0 <= w -> 0 < lp -> 0 <= shares -> 0 <= withdrawable -> 0 < supply ->
  let out := w * shares / lp * withdrawable / supply in
  0 <= out
  /\ out * (lp * supply) <= w * shares * withdrawable
  /\ (w <= lp -> out <= shares * withdrawable / supply).
Proof.
  intros Hw Hlp Hs Hwd Hsup out.
  assert (Hburn : 0 <= w * shares / lp) by (apply Z.div_pos; nia).
  pose proof (Z.mul_div_le (w * shares) lp Hlp) as H1.
  pose proof (Z.mul_div_le (w * shares / lp * withdrawable) supply Hsup) as H2.
  fold out in H2.
  split; [apply Z.div_pos; nia |].
  split; [nia |].
  intros Hle. subst out. apply Z.div_le_mono; [exact Hsup |].
  apply Z.mul_le_mono_nonneg_r; [exact Hwd |].
  apply Z.div_le_upper_bound; [exact Hlp | nia].
Qed.

End BalancedWithdrawFacts.

Section WithdrawQuoteShape.

Context {VaultState DepegAccounts : Type}.

Variable ERROR_INVALID_MINT : string.
Variable calculateWithdrawableAmount : Z -> VaultState -> BN.

Implicit Type this : @AmmImpl VaultState DepegAccounts.

Local Abbreviation withdrawQuote :=
  (getWithdrawQuote ERROR_INVALID_MINT calculateWithdrawableAmount).

(** The balanced quote on non-negative holdings with positive supplies. *)
Lemma balanced_withdraw_value this (w : BN) (slippage now : Z) :
  BN.toNumber (currentTime (accountsInfo this)) = Ok now ->
  0 <= w -> 0 < poolLpSupply (accountsInfo this) ->
  0 <= poolVaultALp (accountsInfo this) ->
  0 <= calculateWithdrawableAmount now (vaultState (vaultA this)) ->
  0 < vaultALpSupply (accountsInfo this) ->
  0 <= poolVaultBLp (accountsInfo this) ->
  0 <= calculateWithdrawableAmount now (vaultState (vaultB this)) ->
  0 < vaultBLpSupply (accountsInfo this) ->
  let outA := w * poolVaultALp (accountsInfo this) / poolLpSupply (accountsInfo this)
              * calculateWithdrawableAmount now (vaultState (vaultA this))
              / vaultALpSupply (accountsInfo this) in
  let outB := w * poolVaultBLp (accountsInfo this) / poolLpSupply (accountsInfo this)
              * calculateWithdrawableAmount now (vaultState (vaultB this))
              / vaultBLpSupply (accountsInfo this) in
  withdrawQuote this w slippage None
  = Ok {| poolTokenAmountIn := w;
          tokenAOutAmount := outA; tokenBOutAmount := outB;
          minTokenAOutAmount := getMinAmountWithSlippage outA slippage;
          minTokenBOutAmount := getMinAmountWithSlippage outB slippage |}.
Proof.
  intros Hnow Hw Hlp HlA HwA HsA HlB HwB HsB outA outB.
  rewrite (balanced_withdraw_unfold _ _ _ _ _ Hnow).
  rewrite !getShareByAmount_floor by assumption. rewrite !bind_Ok.
  rewrite !getAmountByShare_floor
    by first [assumption | apply Z.div_pos; nia].
  reflexivity.
Qed.

(** X6: on non-negative holdings with positive supplies, a balanced withdraw
    quote never favours the withdrawer: each quoted amount is non-negative,
    at most the exact proportional amount
    [w * poolShares * withdrawable / (poolLpSupply * vaultSupply)], and, when
    no more than the supply is withdrawn, at most what the pool's vault
    shares are worth. *)
Theorem balanced_withdraw_bounded this (w : BN) (slippage now : Z) :
  BN.toNumber (currentTime (accountsInfo this)) = Ok now ->
  0 <= w -> 0 < poolLpSupply (accountsInfo this) ->
  0 <= poolVaultALp (accountsInfo this) ->
  0 <= calculateWithdrawableAmount now (vaultState (vaultA this)) ->
  0 < vaultALpSupply (accountsInfo this) ->
  0 <= poolVaultBLp (accountsInfo this) ->
  0 <= calculateWithdrawableAmount now (vaultState (vaultB this)) ->
  0 < vaultBLpSupply (accountsInfo this) ->
  exists quote,
    withdrawQuote this w slippage None = Ok quote
    /\ (0 <= tokenAOutAmount quote
        /\ tokenAOutAmount quote
           * (poolLpSupply (accountsInfo this) * vaultALpSupply (accountsInfo this))
           <= w * poolVaultALp (accountsInfo this)
              * calculateWithdrawableAmount now (vaultState (vaultA this))
        /\ (w <= poolLpSupply (accountsInfo this) ->
            tokenAOutAmount quote
            <= poolVaultALp (accountsInfo this)
               * calculateWithdrawableAmount now (vaultState (vaultA this))
               / vaultALpSupply (accountsInfo this)))
    /\ (0 <= tokenBOutAmount quote
        /\ tokenBOutAmount quote
           * (poolLpSupply (accountsInfo this) * vaultBLpSupply (accountsInfo this))
           <= w * poolVaultBLp (accountsInfo this)
              * calculateWithdrawableAmount now (vaultState (vaultB this))
        /\ (w <= poolLpSupply (accountsInfo this) ->
            tokenBOutAmount quote
            <= poolVaultBLp (accountsInfo this)
               * calculateWithdrawableAmount now (vaultState (vaultB this))
               / vaultBLpSupply (accountsInfo this))).
Proof.
  intros Hnow Hw Hlp HlA HwA HsA HlB HwB HsB.
  eexists. split.
  - apply balanced_withdraw_value; eassumption.
  - simpl tokenAOutAmount. simpl tokenBOutAmount.
    split; apply balanced_leg_bounds; assumption.
Qed.

(** X7: the balanced withdraw quote is monotone: on the same non-negative
    pool state, withdrawing more liquidity tokens never quotes less of either
    token. *)
Theorem balanced_withdraw_monotone this (w1 w2 : BN) (slippage now : Z) :
  BN.toNumber (currentTime (accountsInfo this)) = Ok now ->
  0 <= w1 -> w1 <= w2 -> 0 < poolLpSupply (accountsInfo this) ->
  0 <= poolVaultALp (accountsInfo this) ->
  0 <= calculateWithdrawableAmount now (vaultState (vaultA this)) ->
  0 < vaultALpSupply (accountsInfo this) ->
  0 <= poolVaultBLp (accountsInfo this) ->
  0 <= calculateWithdrawableAmount now (vaultState (vaultB this)) ->
  0 < vaultBLpSupply (accountsInfo this) ->
  exists quote1 quote2,
    withdrawQuote this w1 slippage None = Ok quote1
    /\ withdrawQuote this w2 slippage None = Ok quote2
    /\ tokenAOutAmount quote1 <= tokenAOutAmount quote2
    /\ tokenBOutAmount quote1 <= tokenBOutAmount quote2.
Proof.
  intros Hnow Hw1 Hle Hlp HlA HwA HsA HlB HwB HsB.
  assert (Hmono : forall shares withdrawable supply,
            0 <= shares -> 0 <= withdrawable -> 0 < supply ->
            w1 * shares / poolLpSupply (accountsInfo this) * withdrawable / supply
            <= w2 * shares / poolLpSupply (accountsInfo this) * withdrawable / supply).
  { intros shares withdrawable supply Hs Hwd Hsup.
    apply Z.div_le_mono; [exact Hsup |].
    apply Z.mul_le_mono_nonneg_r; [exact Hwd |].
    apply Z.div_le_mono; [exact Hlp | nia]. }
  eexists. eexists.
  split; [apply balanced_withdraw_value; first [eassumption | lia] |].
  split; [apply balanced_withdraw_value; first [eassumption | lia] |].
  simpl tokenAOutAmount. simpl tokenBOutAmount.
  split; apply Hmono; assumption.
Qed.

(** X9: with a clock that fits, a single-sided withdraw quote for a mint that
    is neither token's address fails with the invalid-mint message, before
    the curve is consulted. *)
Theorem single_sided_withdraw_invalid_mint
  this (withdrawTokenAmount : BN) (slippage now : Z) (tokenMint : PublicKey) :
  BN.toNumber (currentTime (accountsInfo this)) = Ok now ->
  tokenMint <> address (tokenA this) ->
  tokenMint <> address (tokenB this) ->
  withdrawQuote this withdrawTokenAmount slippage (Some tokenMint)
  = Err (InvariantViolation ERROR_INVALID_MINT).
Proof.
  intros Hnow HA HB. unfold getWithdrawQuote. rewrite Hnow, !bind_Ok.
  rewrite (equals_neq HA), (equals_neq HB). reflexivity.
Qed.

End WithdrawQuoteShape.

(** Peels the binds off a hypothesis [... = Ok _]. *)
Ltac peel_binds H :=
  repeat (apply bind_succeeds in H;
          let x := fresh "x" in
          let Hx := fresh "Hx" in
          destruct H as [x [Hx H]]; cbv beta in H).

Section WithdrawQuoteInvariants.

Context {VaultState DepegAccounts : Type}.

Variable ERROR_INVALID_MINT : string.
Variable calculateWithdrawableAmount : Z -> VaultState -> BN.

Implicit Type this : @AmmImpl VaultState DepegAccounts.

Local Abbreviation withdrawQuote :=
  (getWithdrawQuote ERROR_INVALID_MINT calculateWithdrawableAmount).

(** What a produced single-sided quote looks like. *)
Lemma single_sided_withdraw_inv
  this (w : BN) (slippage : Z) (tokenMint : PublicKey) (quote : WithdrawQuote) :
  withdrawQuote this w slippage (Some tokenMint) = Ok quote ->
  exists realOutAmount,
    equals tokenMint (address (tokenA this))
    || equals tokenMint (address (tokenB this)) = true
    /\ quote
       = {| poolTokenAmountIn := w;
            tokenAOutAmount :=
              if equals tokenMint (address (tokenA this)) then realOutAmount else 0;
            tokenBOutAmount :=
              if equals tokenMint (address (tokenB this)) then realOutAmount else 0;
            minTokenAOutAmount :=
              if equals tokenMint (address (tokenA this))
              then getMinAmountWithSlippage realOutAmount slippage else 0;
            minTokenBOutAmount :=
              if equals tokenMint (address (tokenB this))
              then getMinAmountWithSlippage realOutAmount slippage else 0 |}.
Proof.
  unfold getWithdrawQuote. intros H.
  apply bind_succeeds in H. destruct H as [nowA [_ H]]. cbv beta zeta in H.
  apply bind_succeeds in H. destruct H as [nowB [_ H]]. cbv beta zeta in H.
  destruct (equals tokenMint (address (tokenA this))
            || equals tokenMint (address (tokenB this))) eqn:Hvalid;
    [| discriminate H].
  simpl invariant in H. rewrite bind_Ok in H.
  apply bind_succeeds in H. destruct H as [outAmount [_ H]]. cbv beta in H.
  destruct (equals tokenMint (tokenAMint (poolState this)));
    simpl TradeDirection_eqb in H; cbv beta iota in H;
    peel_binds H; injection H as <-; eexists; (split; [reflexivity |]);
    reflexivity.
Qed.

(** X8: every withdraw quote that is produced, balanced or single-sided,
    repeats the liquidity-token amount it was asked for, and each of its two
    minimums is the slippage-adjusted minimum of the amount quoted for the
    same token. *)
Theorem withdraw_quote_minimums
  this (w : BN) (slippage : Z) (tokenMint : option PublicKey)
  (quote : WithdrawQuote) :
  withdrawQuote this w slippage tokenMint = Ok quote ->
  poolTokenAmountIn quote = w
  /\ minTokenAOutAmount quote
     = getMinAmountWithSlippage (tokenAOutAmount quote) slippage
  /\ minTokenBOutAmount quote
     = getMinAmountWithSlippage (tokenBOutAmount quote) slippage.
Proof.
  destruct tokenMint as [tokenMint |]; intros H.
  - apply single_sided_withdraw_inv in H. destruct H as [real [_ ->]].
    simpl.
    destruct (equals tokenMint (address (tokenA this))),
      (equals tokenMint (address (tokenB this))); repeat split.
  - unfold getWithdrawQuote in H. peel_binds H.
    injection H as <-. repeat split.
Qed.

(** X10: on a stable pool whose token infos name its two distinct mints,
    handing the amounts of a produced single-sided quote to [withdraw] always
    selects [removeLiquiditySingleSide] with minimum output 0: the quoted
    minimum is not submitted.  The destination is the user's token B account
    only when the quoted B amount is non-zero, so a quote for token B whose
    amount is zero is sent to the token A account.  On a constant-product
    pool [withdraw] always selects [removeBalanceLiquidity]. *)
Theorem withdraw_method_of_single_sided_quote
  this (w : BN) (slippage : Z) (tokenMint : PublicKey) (quote : WithdrawQuote) :
  address (tokenA this) = tokenAMint (poolState this) ->
  address (tokenB this) = tokenBMint (poolState this) ->
  tokenAMint (poolState this) <> tokenBMint (poolState this) ->
  withdrawQuote this w slippage (Some tokenMint) = Ok quote ->
  (isStablePool this = true ->
   withdraw_programMethod this w (tokenAOutAmount quote) (tokenBOutAmount quote)
   = removeLiquiditySingleSide w 0
       (if BN.isZero (tokenBOutAmount quote) then userAToken else userBToken))
  /\ (tokenAOutAmount quote <> 0 -> tokenMint = tokenAMint (poolState this))
  /\ (tokenBOutAmount quote <> 0 -> tokenMint = tokenBMint (poolState this))
  /\ (isStablePool this = false ->
      withdraw_programMethod this w (tokenAOutAmount quote) (tokenBOutAmount quote)
      = removeBalanceLiquidity w (tokenAOutAmount quote) (tokenBOutAmount quote)).
Proof.
  intros HA HB Hdistinct H.
  apply single_sided_withdraw_inv in H. destruct H as [real [Hvalid ->]].
  rewrite HA, HB in *. simpl tokenAOutAmount. simpl tokenBOutAmount.
  unfold withdraw_programMethod.
  destruct (equals tokenMint (tokenAMint (poolState this))) eqn:EA.
  - apply String.eqb_eq in EA. subst tokenMint.
    rewrite (equals_neq Hdistinct).
    split; [intros ->; rewrite orb_true_r; reflexivity |].
    split; [reflexivity |].
    split; [intros Hn; exfalso; apply Hn; reflexivity |].
    intros ->. reflexivity.
  - destruct (equals tokenMint (tokenBMint (poolState this))) eqn:EB;
      [| discriminate Hvalid].
    apply String.eqb_eq in EB. subst tokenMint.
    split; [intros ->; reflexivity |].
    split; [intros Hn; exfalso; apply Hn; reflexivity |].
    split; [reflexivity |].
    intros ->. reflexivity.
Qed.

End WithdrawQuoteInvariants.

(** ** Deposit quote regimes *)

(** Peels binds, branches and pair patterns off a hypothesis [... = Ok _]. *)
Ltac peel_quote H :=
  repeat match type of H with
         | bind (invariant ?c _) _ = Ok _ =>
             destruct c; [simpl invariant in H; rewrite bind_Ok in H | discriminate H]
         | bind _ _ = Ok _ =>
             apply bind_succeeds in H;
             let x := fresh "x" in
             let Hx := fresh "Hx" in
             destruct H as [x [Hx H]]; cbv beta zeta in H
         | (if ?c then _ else _) = Ok _ => destruct c
         | (match ?p with (_, _) => _ end) = Ok _ => destruct p
         end.

Section DepositRegimeFacts.

Context {VaultState DepegAccounts : Type}.

Variable UNLOCK_AMOUNT_BUFFER : Z.
Variable calculateWithdrawableAmount : Z -> VaultState -> BN.
Variable computeActualDepositAmount : BN -> BN -> BN -> BN -> BN -> option BN.
Variable getMaxAmountWithSlippage : BN -> Z -> BN.

Implicit Type this : @AmmImpl VaultState DepegAccounts.

Local Abbreviation depositQuote :=
  (getDepositQuote UNLOCK_AMOUNT_BUFFER calculateWithdrawableAmount
     computeActualDepositAmount getMaxAmountWithSlippage).

(** X14: in every deposit quote that is produced, the minimum is tied to the
    quoted liquidity-token amount: equal to it on a pool without supply (the
    bootstrap), and its slippage-adjusted minimum in every other regime. *)
Theorem deposit_quote_minimum
  this (a b : BN) (balance : bool) (slippage : Z) (quote : DepositQuote) :
  depositQuote this a b balance slippage = Ok quote ->
  minPoolTokenAmountOut quote
  = if BN.isZero (poolLpSupply (accountsInfo this))
    then poolTokenAmountOut quote
    else getMinAmountWithSlippage (poolTokenAmountOut quote) slippage.
Proof.
  unfold getDepositQuote. intros H.
  destruct (BN.isZero (poolLpSupply (accountsInfo this))) eqn:Hlp;
    peel_quote H; injection H as <-; reflexivity.
Qed.

(** X13: with the balance flag off, a deposit into a pool with liquidity that
    passes the constant-product check (the pool is stable, or one amount is
    zero) is priced by the curve's [computeImbalanceDeposit] on the two
    actual deposit amounts, and the quote returns both input amounts
    unchanged; this includes a one-sided deposit into a constant-product
    pool. *)
Theorem unbalanced_deposit_uses_imbalance_path
  this (a b : BN) (slippage now : Z) :
  poolLpSupply (accountsInfo this) <> 0 ->
  BN.toNumber (currentTime (accountsInfo this)) = Ok now ->
  isStablePool this = true \/ a = 0 \/ b = 0 ->
  depositQuote this a b false slippage
  = (actualDepositAAmount <-
       external (computeActualDepositAmount a
                   (tokenAAmount (poolInfo this)) (poolVaultALp (accountsInfo this))
                   (vaultALpSupply (accountsInfo this))
                   (calculateWithdrawableAmount now (vaultState (vaultA this)))) ;;
     actualDepositBAmount <-
       external (computeActualDepositAmount b
                   (tokenBAmount (poolInfo this)) (poolVaultBLp (accountsInfo this))
                   (vaultBLpSupply (accountsInfo this))
                   (calculateWithdrawableAmount now (vaultState (vaultB this)))) ;;
     poolTokenAmountOut <-
       external (computeImbalanceDeposit (swapCurve this)
                   actualDepositAAmount actualDepositBAmount
                   (tokenAAmount (poolInfo this)) (tokenBAmount (poolInfo this))
                   (poolLpSupply (accountsInfo this)) (fees (poolState this))) ;;
     Ok {| poolTokenAmountOut := poolTokenAmountOut;
           minPoolTokenAmountOut :=
             getMinAmountWithSlippage poolTokenAmountOut slippage;
           tokenAInAmount := a; tokenBInAmount := b |}).
Proof.
  intros Hlp Hnow Hside. unfold getDepositQuote.
  destruct (negb (negb (isStablePool this) && negb (BN.isZero a)
                  && negb (BN.isZero b)
                  && negb (BN.isZero (poolLpSupply (accountsInfo this)))))
    eqn:Hc1.
  - simpl invariant. rewrite bind_Ok.
    rewrite !andb_false_r. simpl invariant. rewrite bind_Ok.
    apply isZero_false in Hlp. rewrite Hlp, Hnow, !bind_Ok. reflexivity.
  - apply (constantProduct_check UNLOCK_AMOUNT_BUFFER calculateWithdrawableAmount
             computeActualDepositAmount getMaxAmountWithSlippage) in Hc1.
    destruct Hc1 as [Hcp [Ha [Hb _]]].
    destruct Hside as [Hs | [Hz | Hz]]; [congruence | contradiction | contradiction].
Qed.

(** X11: on a constant-product pool with liquidity and a clock that fits, a
    balanced deposit quote with one amount zero is always produced: the share
    of the other amount and the vault round trip of
    [computeActualInAmount] go through the guarded converters only. *)
Theorem constantProduct_balanced_deposit_never_fails
  this (a b : BN) (slippage now : Z) :
  isStablePool this = false ->
  poolLpSupply (accountsInfo this) <> 0 ->
  BN.toNumber (currentTime (accountsInfo this)) = Ok now ->
  a = 0 \/ b = 0 ->
  succeeds (depositQuote this a b true slippage).
Proof.
  intros Hcp Hlp Hnow Hside. unfold getDepositQuote.
  assert (Hzero : BN.isZero a || BN.isZero b = true).
  { destruct Hside as [-> | ->]; [reflexivity | apply orb_true_r]. }
  apply isZero_false in Hlp. rewrite Hcp, Hlp, Hnow.
  destruct (BN.isZero a) eqn:Za; destruct (BN.isZero b) eqn:Zb;
    try discriminate Hzero; simpl invariant; rewrite !bind_Ok; cbv beta zeta;
    simpl andb; cbv iota;
    (apply bind_preserves_succeeds; [solve [auto with succeeds] | intros ?]);
    (apply bind_preserves_succeeds; [solve [auto with succeeds] | intros [? ?]]);
    apply Ok_succeeds.
Qed.

(** X12: on a stable pool with liquidity, positive pool amounts and a clock
    that fits, the balanced deposit quote for one positive amount returns
    that amount unchanged and derives the other side as the floor of
    [amount * otherPoolAmount / poolAmount], so the pool ratio is kept up to
    one unit of rounding; the quoted liquidity-token amount is the buffered
    share of the given amount. *)
Theorem stable_balanced_deposit_ratio this (amount : BN) (slippage now : Z) :
  isStablePool this = true ->
  0 < poolLpSupply (accountsInfo this) ->
  BN.toNumber (currentTime (accountsInfo this)) = Ok now ->
  0 < amount ->
  0 < tokenAAmount (poolInfo this) ->
  0 < tokenBAmount (poolInfo this) ->
  (exists quote,
     depositQuote this 0 amount true slippage = Ok quote
     /\ tokenBInAmount quote = amount
     /\ tokenAInAmount quote
        = amount * tokenAAmount (poolInfo this) / tokenBAmount (poolInfo this)
     /\ tokenAInAmount quote * tokenBAmount (poolInfo this)
        <= amount * tokenAAmount (poolInfo this)
        < (tokenAInAmount quote + 1) * tokenBAmount (poolInfo this)
     /\ poolTokenAmountOut quote
        = getMinAmountWithSlippage
            (amount * poolLpSupply (accountsInfo this)
             / tokenBAmount (poolInfo this)) UNLOCK_AMOUNT_BUFFER)
  /\ (exists quote,
        depositQuote this amount 0 true slippage = Ok quote
        /\ tokenAInAmount quote = amount
        /\ tokenBInAmount quote
           = amount * tokenBAmount (poolInfo this) / tokenAAmount (poolInfo this)
        /\ tokenBInAmount quote * tokenAAmount (poolInfo this)
           <= amount * tokenBAmount (poolInfo this)
           < (tokenBInAmount quote + 1) * tokenAAmount (poolInfo this)
        /\ poolTokenAmountOut quote
           = getMinAmountWithSlippage
               (amount * poolLpSupply (accountsInfo this)
                / tokenAAmount (poolInfo this)) UNLOCK_AMOUNT_BUFFER).
Proof.
  intros Hstable Hlp Hnow Hamount HA HB.
  assert (Hlpz : BN.isZero (poolLpSupply (accountsInfo this)) = false)
    by (apply isZero_false; lia).
  assert (Haz : BN.isZero amount = false) by (apply isZero_false; lia).
  assert (Hratio : forall x y, 0 < y -> 0 <= x ->
            x / y * y <= x < (x / y + 1) * y).
  { intros x y Hy Hx.
    pose proof (Z.mul_div_le x y Hy). pose proof (Z.mul_succ_div_gt x y Hy).
    nia. }
  split.
  - unfold getDepositQuote.
    rewrite Hstable, Hlpz, Hnow, Haz. change (BN.isZero 0) with true.
    simpl invariant. rewrite !bind_Ok. cbv beta zeta. simpl andb. cbv iota.
    rewrite getShareByAmount_floor by lia. rewrite bind_Ok.
    unfold BN.mul. rewrite div_floor by nia. rewrite bind_Ok.
    eexists. split; [reflexivity |]. simpl.
    split; [reflexivity |]. split; [reflexivity |].
    split; [apply Hratio; nia | reflexivity].
  - unfold getDepositQuote.
    rewrite Hstable, Hlpz, Hnow, Haz. change (BN.isZero 0) with true.
    simpl invariant. rewrite !bind_Ok. cbv beta zeta. simpl andb. cbv iota.
    rewrite getShareByAmount_floor by lia. rewrite bind_Ok.
    unfold BN.mul. rewrite div_floor by nia. rewrite bind_Ok.
    eexists. split; [reflexivity |]. simpl.
    split; [reflexivity |]. split; [reflexivity |].
    split; [apply Hratio; nia | reflexivity].
Qed.

End DepositRegimeFacts.

(** ** Fees *)

Section FeeFacts.

Context {VaultState DepegAccounts : Type}.

Variable ERROR_INVALID_MINT : string.
Variable calculateMaxSwapOutAmount :
  PublicKey -> PublicKey -> PublicKey -> BN -> BN -> BN -> BN -> option BN.

Implicit Type this : @AmmImpl VaultState DepegAccounts.

Local Abbreviation maxSwapIn :=
  (getMaxSwapInAmount ERROR_INVALID_MINT calculateMaxSwapOutAmount).

Lemma fee_share_bounds (amount numerator denominator : Z) :
  0 <= amount -> 0 <= numerator <= denominator -> 0 < denominator ->
  BN.div (BN.mul amount numerator) denominator
  = Ok (amount * numerator / denominator)
  /\ 0 <= amount * numerator / denominator <= amount.
Proof.
  intros Ha Hn Hd. unfold BN.mul. split.
  - apply div_floor; nia.
  - split.
    + apply Z.div_pos; nia.
    + apply Z.div_le_upper_bound; nia.
Qed.

(** X15: a fee whose denominator is zero cannot be computed (bn.js asserts);
    with a numerator between zero and a positive denominator, the trading fee
    and the admin trading fee of a non-negative amount are the floors of
    [amount * numerator / denominator] and lie between zero and the amount. *)
Theorem trading_fees_bounded this (amount : BN) :
  (tradeFeeDenominator (fees (poolState this)) = 0 ->
   calculateTradingFee this amount = Err AssertionFailed)
  /\ (ownerTradeFeeDenominator (fees (poolState this)) = 0 ->
      calculateAdminTradingFee this amount = Err AssertionFailed)
  /\ (0 <= amount ->
      0 <= tradeFeeNumerator (fees (poolState this))
        <= tradeFeeDenominator (fees (poolState this)) ->
      0 < tradeFeeDenominator (fees (poolState this)) ->
      exists tradeFee,
        calculateTradingFee this amount = Ok tradeFee
        /\ tradeFee = amount * tradeFeeNumerator (fees (poolState this))
                      / tradeFeeDenominator (fees (poolState this))
        /\ 0 <= tradeFee <= amount)
  /\ (0 <= amount ->
      0 <= ownerTradeFeeNumerator (fees (poolState this))
        <= ownerTradeFeeDenominator (fees (poolState this)) ->
      0 < ownerTradeFeeDenominator (fees (poolState this)) ->
      exists adminFee,
        calculateAdminTradingFee this amount = Ok adminFee
        /\ adminFee = amount * ownerTradeFeeNumerator (fees (poolState this))
                      / ownerTradeFeeDenominator (fees (poolState this))
        /\ 0 <= adminFee <= amount).
Proof.
  split; [| split; [| split]].
  - intros Hz. unfold calculateTradingFee. rewrite Hz. reflexivity.
  - intros Hz. unfold calculateAdminTradingFee. rewrite Hz. reflexivity.
  - intros Ha Hn Hd. destruct (fee_share_bounds Ha Hn Hd) as [Hfee Hb].
    eexists. split; [exact Hfee |]. split; [reflexivity | exact Hb].
  - intros Ha Hn Hd. destruct (fee_share_bounds Ha Hn Hd) as [Hfee Hb].
    eexists. split; [exact Hfee |]. split; [reflexivity | exact Hb].
Qed.

(** X17: [feeBps] is the trading fee on 10000 units; it fails on a zero
    denominator and lies between 0 and 10000 for a numerator between zero
    and a positive denominator. *)
Theorem feeBps_is_fee_on_10000 this :
  feeBps this = calculateTradingFee this 10000
  /\ (tradeFeeDenominator (fees (poolState this)) = 0 ->
      feeBps this = Err AssertionFailed)
  /\ (0 <= tradeFeeNumerator (fees (poolState this))
        <= tradeFeeDenominator (fees (poolState this)) ->
      0 < tradeFeeDenominator (fees (poolState this)) ->
      exists bps, feeBps this = Ok bps /\ 0 <= bps <= 10000).
Proof.
  assert (Heq : feeBps this = calculateTradingFee this 10000).
  { unfold feeBps, calculateTradingFee, BN.mul. rewrite Z.mul_comm. reflexivity. }
  split; [exact Heq | split].
  - intros Hz. unfold feeBps. rewrite Hz. reflexivity.
  - intros Hn Hd. rewrite Heq.
    destruct (fee_share_bounds (amount := 10000) ltac:(lia) Hn Hd) as [Hfee Hb].
    eexists. split; [exact Hfee | exact Hb].
Qed.


End FeeFacts.

(** ** Depeg decision *)

Section DepegDecision.

Context {VaultState DepegAccounts : Type}.

Implicit Type this : @AmmImpl VaultState DepegAccounts.

(** X18: on a stable pool with non-negative amounts and a positive
    multiplier-normalized total, [depegToken] returns token A when twice its
    raw amount reaches the total, otherwise token B when twice its raw amount
    reaches the total, and null otherwise; token A takes precedence. *)
Theorem depegToken_decision this (amp : BN) (tm : TokenMultiplier) :
  curveType (poolState this) = stable amp tm ->
  0 <= tokenAAmount (poolInfo this) ->
  0 <= tokenBAmount (poolInfo this) ->
  let total := tokenAAmount (poolInfo this) * tokenAMultiplier tm
               + tokenBAmount (poolInfo this) * tokenBMultiplier tm in
  0 < total ->
  (total <= 2 * tokenAAmount (poolInfo this) ->
   depegToken this = Ok (Some (tokenA this)))
  /\ (2 * tokenAAmount (poolInfo this) < total ->
      total <= 2 * tokenBAmount (poolInfo this) ->
      depegToken this = Ok (Some (tokenB this)))
  /\ (2 * tokenAAmount (poolInfo this) < total ->
      2 * tokenBAmount (poolInfo this) < total ->
      depegToken this = Ok None).
Proof.
  intros Hc Ha Hb total Ht.
  pose proof (depegToken_stable_threshold this Hc Ha Hb Ht) as Hd.
  fold total in Hd. rewrite Hd.
  split; [| split].
  - intros H. apply Z.leb_le in H. rewrite H. reflexivity.
  - intros HA HB. apply Z.leb_gt in HA. apply Z.leb_le in HB.
    rewrite HA, HB. reflexivity.
  - intros HA HB. apply Z.leb_gt in HA. apply Z.leb_gt in HB.
    rewrite HA, HB. reflexivity.
Qed.

End DepegDecision.

(** ** Failing ratio divisions and the clock *)

(** Two nested binds whose composition is known to fail. *)
Lemma bind_fails_eq {A B C : Type} (c : result A) (f : A -> result B)
  (k : B -> result C) (e : error) :
  (x <- c ;; f x) = Err e ->
  (x <- c ;; y <- f x ;; k y) = Err e.
Proof.
  intros Hc. destruct c as [x | e']; simpl in *.
  - rewrite Hc. reflexivity.
  - congruence.
Qed.

Section FailingPaths.

Context {VaultState DepegAccounts Decimal : Type}.

Variable UNLOCK_AMOUNT_BUFFER : Z.
Variable ERROR_INVALID_MINT : string.
Variable calculateWithdrawableAmount : Z -> VaultState -> BN.
Variable computeActualDepositAmount : BN -> BN -> BN -> BN -> BN -> option BN.
Variable getMaxAmountWithSlippage : BN -> Z -> BN.
Variable calculateSwapQuote :
  PublicKey -> BN -> @SwapQuoteParam VaultState DepegAccounts
  -> option (BN * BN * Decimal).

Implicit Type this : @AmmImpl VaultState DepegAccounts.

Local Abbreviation depositQuote :=
  (getDepositQuote UNLOCK_AMOUNT_BUFFER calculateWithdrawableAmount
     computeActualDepositAmount getMaxAmountWithSlippage).

Local Abbreviation withdrawQuote :=
  (getWithdrawQuote ERROR_INVALID_MINT calculateWithdrawableAmount).

(** X21: on a stable pool with liquidity and a clock that fits, the balanced
    deposit quote for an amount of one token fails with a bn.js assertion
    whenever the pool's amount of that token is zero: the derived side is a
    bare division by it. *)
Theorem stable_balanced_deposit_fails_on_empty_side
  this (amount : BN) (slippage now : Z) :
  isStablePool this = true ->
  poolLpSupply (accountsInfo this) <> 0 ->
  BN.toNumber (currentTime (accountsInfo this)) = Ok now ->
  (tokenBAmount (poolInfo this) = 0 ->
   depositQuote this 0 amount true slippage = Err AssertionFailed)
  /\ (tokenAAmount (poolInfo this) = 0 -> amount <> 0 ->
      depositQuote this amount 0 true slippage = Err AssertionFailed).
Proof.
  intros Hstable Hlp Hnow. split.
  - intros Hzero.
    apply (stable_balanced_deposit_empty_side UNLOCK_AMOUNT_BUFFER
             calculateWithdrawableAmount computeActualDepositAmount
             getMaxAmountWithSlippage this amount slippage Hstable Hlp Hnow Hzero).
  - intros Hzero Hamount. unfold getDepositQuote.
    apply isZero_false in Hlp. apply isZero_false in Hamount.
    rewrite Hstable, Hlp, Hnow, Hzero, Hamount. reflexivity.
Qed.

(** X22: with a clock that fits, a valid mint and a curve that returns, the
    single-sided withdraw quote fails with a bn.js assertion whenever the
    destination vault has nothing withdrawable or no share supply: the round
    trip divides by both without a test. *)
Theorem single_sided_withdraw_fails_on_empty_vault
  this (withdrawTokenAmount : BN) (slippage now : Z) (tokenMint : PublicKey)
  (direction : TradeDirection) (vaultLpSupply vaultTotalAmount outAmount : BN) :
  address (tokenA this) = tokenAMint (poolState this) ->
  address (tokenB this) = tokenBMint (poolState this) ->
  tokenAMint (poolState this) <> tokenBMint (poolState this) ->
  BN.toNumber (currentTime (accountsInfo this)) = Ok now ->
  (tokenMint = tokenAMint (poolState this)
   /\ direction = BToA
   /\ vaultLpSupply = vaultALpSupply (accountsInfo this)
   /\ vaultTotalAmount = calculateWithdrawableAmount now (vaultState (vaultA this)))
  \/ (tokenMint = tokenBMint (poolState this)
      /\ direction = AToB
      /\ vaultLpSupply = vaultBLpSupply (accountsInfo this)
      /\ vaultTotalAmount
         = calculateWithdrawableAmount now (vaultState (vaultB this))) ->
  computeWithdrawOne (swapCurve this) withdrawTokenAmount
    (poolLpSupply (accountsInfo this))
    (tokenAAmount (poolInfo this)) (tokenBAmount (poolInfo this))
    (fees (poolState this)) direction
  = Some outAmount ->
  vaultTotalAmount = 0 \/ vaultLpSupply = 0 ->
  withdrawQuote this withdrawTokenAmount slippage (Some tokenMint)
  = Err AssertionFailed.
Proof.
  intros HA HB Hdistinct Hnow Hside Hone Hzero.
  assert (Hfail : (vaultLpToBurn <-
                     BN.div (BN.mul outAmount vaultLpSupply) vaultTotalAmount ;;
                   BN.div (BN.mul vaultLpToBurn vaultTotalAmount) vaultLpSupply)
                  = Err AssertionFailed).
  { unfold BN.div at 1. destruct (BN.isZero vaultTotalAmount) eqn:Ht.
    - reflexivity.
    - rewrite bind_Ok. destruct Hzero as [Hz | Hz].
      + apply isZero_false in Ht. contradiction.
      + rewrite Hz. reflexivity. }
  unfold getWithdrawQuote. rewrite Hnow, !bind_Ok. rewrite HA, HB.
  destruct Hside as [[Hm [Hd [Hs Ht]]] | [Hm [Hd [Hs Ht]]]].
  - rewrite Hm, equals_refl, (equals_neq Hdistinct).
    simpl invariant. rewrite bind_Ok.
    rewrite <- Hd, Hone. simpl external. rewrite bind_Ok.
    rewrite Hd. simpl TradeDirection_eqb. cbv beta iota zeta.
    rewrite <- Hs, <- Ht.
    apply bind_fails_eq. exact Hfail.
  - assert (Hne : tokenBMint (poolState this) <> tokenAMint (poolState this))
      by congruence.
    rewrite Hm, equals_refl, (equals_neq Hne).
    simpl invariant. rewrite bind_Ok.
    rewrite <- Hd, Hone. simpl external. rewrite bind_Ok.
    rewrite Hd. simpl TradeDirection_eqb. cbv beta iota zeta.
    rewrite <- Hs, <- Ht.
    apply bind_fails_eq. exact Hfail.
Qed.

(** X23: the quotes read the clock through [toNumber]: when its magnitude
    does not fit in 53 bits, the swap quote, every withdraw quote and every
    deposit quote on a pool with liquidity that passes the precondition
    checks fail with a bn.js assertion, whatever else they are given. *)
Theorem quotes_fail_on_wide_clock
  this (inTokenMint : PublicKey) (amount a b : BN) (balance : bool)
  (slippage : Z) (tokenMint : option PublicKey) :
  2 ^ 53 <= Z.abs (currentTime (accountsInfo this)) ->
  getSwapQuote calculateSwapQuote this inTokenMint amount slippage
  = Err AssertionFailed
  /\ withdrawQuote this amount slippage tokenMint = Err AssertionFailed
  /\ (poolLpSupply (accountsInfo this) <> 0 -> a = 0 \/ b = 0 ->
      depositQuote this a b balance slippage = Err AssertionFailed).
Proof.
  intros Hwide.
  assert (Hclock : BN.toNumber (currentTime (accountsInfo this))
                   = Err AssertionFailed).
  { unfold BN.toNumber. apply Z.ltb_ge in Hwide. rewrite Hwide. reflexivity. }
  split; [| split].
  - unfold getSwapQuote. rewrite Hclock. reflexivity.
  - unfold getWithdrawQuote. rewrite Hclock. reflexivity.
  - intros Hlp Hside. unfold getDepositQuote.
    apply isZero_false in Hlp. rewrite Hlp, Hclock.
    destruct Hside as [-> | ->]; change (BN.isZero 0) with true;
      simpl negb; rewrite ?andb_false_r, ?andb_false_l; reflexivity.
Qed.

End FailingPaths.

(** ** Decoding the clock account *)

Lemma littleEndian_bound (bytes : list Byte.byte) :
  0 <= littleEndian bytes < 256 ^ Z.of_nat (length bytes).
Proof.
  induction bytes as [| b rest IH].
  - simpl. lia.
  - cbn [littleEndian length]. rewrite Nat2Z.inj_succ, Z.pow_succ_r by lia.
    pose proof (Byte.to_N_bounded b) as Hb.
    assert (0 <= Z.of_N (Byte.to_N b) <= 255) by lia.
    lia.
Qed.

Lemma asInt64_range (v : Z) : 0 <= v < 2 ^ 64 -> - 2 ^ 63 <= asInt64 v < 2 ^ 63.
Proof.
  unfold asInt64.
  change (2 ^ 64) with 18446744073709551616.
  change (2 ^ 63) with 9223372036854775808.
  intros Hv. destruct (v <? 9223372036854775808) eqn:Hlt.
  - apply Z.ltb_lt in Hlt. lia.
  - apply Z.ltb_ge in Hlt. lia.
Qed.

Lemma clock_window_length (accountData : list Byte.byte) :
  length (firstn 8 (skipn 32 accountData))
  = Nat.min 8 (length accountData - 32).
Proof.
  rewrite List.length_firstn, List.length_skipn. reflexivity.
Qed.

(** X19: decoding the clock account fails exactly when it is shorter than 40
    bytes; otherwise it returns a timestamp in the signed 64-bit range. *)
Theorem decodeSysvarClock_range (accountData : list Byte.byte) :
  ((length accountData < 40)%nat ->
   decodeSysvarClock accountData = Err CollaboratorFailure)
  /\ ((40 <= length accountData)%nat ->
      exists timestamp,
        decodeSysvarClock accountData = Ok timestamp
        /\ - 2 ^ 63 <= timestamp < 2 ^ 63).
Proof.
  unfold decodeSysvarClock, readBigInt64LE. cbv zeta.
  pose proof (clock_window_length accountData) as Hlen.
  split; intros Hsize.
  - assert (Hne : (length (firstn 8 (skipn 32 accountData)) =? 8)%nat = false)
      by (apply Nat.eqb_neq; lia).
    rewrite Hne. reflexivity.
  - assert (H8 : length (firstn 8 (skipn 32 accountData)) = 8%nat) by lia.
    rewrite H8. simpl external. eexists. split; [reflexivity |].
    apply asInt64_range.
    pose proof (littleEndian_bound (firstn 8 (skipn 32 accountData))) as Hb.
    rewrite H8 in Hb. exact Hb.
Qed.

(** X20: the decoded timestamp depends on bytes 32 to 39 only: for any 32
    bytes before them and any bytes after them it is the two's-complement
    value of those eight bytes, least significant first. *)
Theorem decodeSysvarClock_reads_timestamp_field
  (header stamp rest : list Byte.byte) :
  length header = 32%nat -> length stamp = 8%nat ->
  decodeSysvarClock (header ++ stamp ++ rest)
  = Ok (asInt64 (littleEndian stamp)).
Proof.
  intros Hh Hs. unfold decodeSysvarClock, readBigInt64LE. cbv zeta.
  assert (Hwin : firstn 8 (skipn 32 (header ++ stamp ++ rest)) = stamp).
  { assert (Hskip : skipn 32 (header ++ stamp ++ rest) = (stamp ++ rest)%list).
    { rewrite <- Hh, List.skipn_app, List.skipn_all, Nat.sub_diag.
      reflexivity. }
    assert (Hfirst : firstn 8 (stamp ++ rest)%list = stamp).
    { rewrite <- Hs, List.firstn_app, List.firstn_all, Nat.sub_diag.
      cbn [firstn]. apply List.app_nil_r. }
    rewrite Hskip. exact Hfirst. }
  rewrite Hwin, Hs. reflexivity.
Qed.

(** ** The statements above at concrete pools *)

Lemma balanced_withdraw_never_fails_witness :
  succeeds (getWithdrawQuote "Invalid mint" Sample.withdrawable
              MoreSamples.unevenStable 1000 50 None).
Proof.
  apply balanced_withdraw_never_fails with (now := 1700000000). reflexivity.
Defined.

Lemma balanced_withdraw_zero_witness :
  getWithdrawQuote "Invalid mint" Sample.withdrawable MoreSamples.unevenStable
    0 50 None
  = Ok {| poolTokenAmountIn := 0; tokenAOutAmount := 0; tokenBOutAmount := 0;
          minTokenAOutAmount := 0; minTokenBOutAmount := 0 |}
  /\ getWithdrawQuote "Invalid mint" Sample.withdrawable Sample.emptyPool
       7 50 None
     = Ok {| poolTokenAmountIn := 7; tokenAOutAmount := 0; tokenBOutAmount := 0;
             minTokenAOutAmount := 0; minTokenBOutAmount := 0 |}.
Proof.
  split.
  - apply balanced_withdraw_zero with (now := 1700000000);
      [reflexivity | left; reflexivity].
  - apply balanced_withdraw_zero with (now := 1700000000);
      [reflexivity | right; reflexivity].
Defined.

Lemma balanced_withdraw_whole_supply_witness :
  exists quote,
    getWithdrawQuote "Invalid mint" Sample.withdrawable MoreSamples.unevenStable
      1000000 50 None = Ok quote
    /\ getAmountByShare 700000 3000000 2000000 false = Ok (tokenAOutAmount quote)
    /\ getAmountByShare 900000 5000000 4000000 false = Ok (tokenBOutAmount quote).
Proof.
  apply (balanced_withdraw_whole_supply "Invalid mint" Sample.withdrawable
           MoreSamples.unevenStable 50 (now := 1700000000)).
  - reflexivity.
  - discriminate.
Defined.

Lemma balanced_withdraw_bounded_witness :
  exists quote,
    getWithdrawQuote "Invalid mint" Sample.withdrawable MoreSamples.unevenStable
      1000 50 None = Ok quote
    /\ 0 <= tokenAOutAmount quote
    /\ 0 <= tokenBOutAmount quote.
Proof.
  destruct (balanced_withdraw_bounded "Invalid mint" Sample.withdrawable
              MoreSamples.unevenStable (w := 1000) 50 (now := 1700000000))
    as [quote [Hq [[HA _] [HB _]]]];
    try reflexivity; try (cbn; lia).
  exists quote. split; [exact Hq | split; assumption].
Defined.

Lemma balanced_withdraw_monotone_witness :
  exists quote1 quote2,
    getWithdrawQuote "Invalid mint" Sample.withdrawable MoreSamples.unevenStable
      1000 50 None = Ok quote1
    /\ getWithdrawQuote "Invalid mint" Sample.withdrawable MoreSamples.unevenStable
         2000 50 None = Ok quote2
    /\ tokenAOutAmount quote1 <= tokenAOutAmount quote2
    /\ tokenBOutAmount quote1 <= tokenBOutAmount quote2.
Proof.
  apply (balanced_withdraw_monotone "Invalid mint" Sample.withdrawable
           MoreSamples.unevenStable (w1 := 1000) (w2 := 2000) 50
           (now := 1700000000));
    try reflexivity; cbn; lia.
Defined.

Lemma single_sided_withdraw_invalid_mint_witness :
  getWithdrawQuote "Invalid mint" Sample.withdrawable MoreSamples.unevenStable
    1000 50 (Some Sample.mintC)
  = Err (InvariantViolation "Invalid mint").
Proof.
  apply single_sided_withdraw_invalid_mint with (now := 1700000000);
    [reflexivity | discriminate | discriminate].
Defined.

Lemma withdraw_quote_minimums_witness :
  let quote := {| poolTokenAmountIn := 1000;
                  tokenAOutAmount := 0; tokenBOutAmount := 1125;
                  minTokenAOutAmount := 0; minTokenBOutAmount := 1119 |} in
  poolTokenAmountIn quote = 1000
  /\ minTokenAOutAmount quote
     = getMinAmountWithSlippage (tokenAOutAmount quote) 50
  /\ minTokenBOutAmount quote
     = getMinAmountWithSlippage (tokenBOutAmount quote) 50.
Proof.
  intros quote.
  apply (withdraw_quote_minimums "Invalid mint" Sample.withdrawable
           MoreSamples.unevenStable 1000 50 (Some Sample.mintB)).
  reflexivity.
Defined.

Lemma withdraw_method_of_single_sided_quote_witness :
  withdraw_programMethod MoreSamples.unevenStable 1000 0 1125
  = removeLiquiditySingleSide 1000 0 userBToken.
Proof.
  apply (proj1 (withdraw_method_of_single_sided_quote "Invalid mint"
                  Sample.withdrawable MoreSamples.unevenStable 1000 50 Sample.mintB
                  (quote := {| poolTokenAmountIn := 1000;
                               tokenAOutAmount := 0; tokenBOutAmount := 1125;
                               minTokenAOutAmount := 0;
                               minTokenBOutAmount := 1119 |})
                  eq_refl eq_refl ltac:(discriminate) eq_refl)).
  reflexivity.
Defined.

Lemma deposit_quote_minimum_witness :
  let quote := {| poolTokenAmountOut := 6209; minPoolTokenAmountOut := 6177;
                  tokenAInAmount := 6533; tokenBInAmount := 7000 |} in
  minPoolTokenAmountOut quote
  = getMinAmountWithSlippage (poolTokenAmountOut quote) 50.
Proof.
  intros quote.
  apply (deposit_quote_minimum 20 Sample.withdrawable Sample.actualDeposit
           Sample.maxWithSlippage MoreSamples.unevenStable 0 7000 true 50
           (quote := quote)).
  reflexivity.
Defined.

Lemma unbalanced_deposit_uses_imbalance_path_witness :
  getDepositQuote 20 Sample.withdrawable Sample.actualDeposit
    Sample.maxWithSlippage MoreSamples.imbalanceStable 3000 1350 false 50
  = Ok {| poolTokenAmountOut := 2000; minPoolTokenAmountOut := 1990;
          tokenAInAmount := 3000; tokenBInAmount := 1350 |}.
Proof.
  rewrite (unbalanced_deposit_uses_imbalance_path 20 Sample.withdrawable
             Sample.actualDeposit Sample.maxWithSlippage
             MoreSamples.imbalanceStable (a := 3000) (b := 1350) 50
             (now := 1700000000)).
  - reflexivity.
  - discriminate.
  - reflexivity.
  - left. reflexivity.
Defined.

Lemma constantProduct_balanced_deposit_never_fails_witness :
  succeeds (getDepositQuote 20 Sample.withdrawable Sample.actualDeposit
              Sample.maxWithSlippage Sample.fundedPool 1000 0 true 50).
Proof.
  apply constantProduct_balanced_deposit_never_fails with (now := 1700000000).
  - reflexivity.
  - discriminate.
  - reflexivity.
  - right. reflexivity.
Defined.

Lemma stable_balanced_deposit_ratio_witness :
  (exists quote,
     getDepositQuote 20 Sample.withdrawable Sample.actualDeposit
       Sample.maxWithSlippage MoreSamples.unevenStable 0 7000 true 50 = Ok quote
     /\ tokenAInAmount quote = 6533 /\ tokenBInAmount quote = 7000)
  /\ (exists quote,
        getDepositQuote 20 Sample.withdrawable Sample.actualDeposit
          Sample.maxWithSlippage MoreSamples.unevenStable 7000 0 true 50 = Ok quote
        /\ tokenAInAmount quote = 7000 /\ tokenBInAmount quote = 7500).
Proof.
  destruct (stable_balanced_deposit_ratio 20 Sample.withdrawable
              Sample.actualDeposit Sample.maxWithSlippage
              MoreSamples.unevenStable (amount := 7000) 50 (now := 1700000000))
    as [[qa [Hqa [HbA [HaA _]]]] [qb [Hqb [HaB [HbB _]]]]];
    try reflexivity.
  split.
  - exists qa. split; [exact Hqa | split; [exact HaA | exact HbA]].
  - exists qb. split; [exact Hqb | split; [exact HaB | exact HbB]].
Defined.

Lemma trading_fees_bounded_witness :
  (exists tradeFee,
     calculateTradingFee Sample.fundedPool 10000 = Ok tradeFee
     /\ tradeFee = 10000 * 25 / 10000 /\ 0 <= tradeFee <= 10000)
  /\ (exists adminFee,
        calculateAdminTradingFee Sample.fundedPool 10000 = Ok adminFee
        /\ adminFee = 10000 * 5 / 10000 /\ 0 <= adminFee <= 10000).
Proof.
  destruct (trading_fees_bounded Sample.fundedPool 10000) as [_ [_ [Ht Ha]]].
  split.
  - apply Ht; cbn; lia.
  - apply Ha; cbn; lia.
Defined.

Lemma feeBps_is_fee_on_10000_witness :
  exists bps, feeBps Sample.fundedPool = Ok bps /\ 0 <= bps <= 10000.
Proof.
  apply (proj2 (proj2 (feeBps_is_fee_on_10000 Sample.fundedPool))); cbn; lia.
Defined.


Lemma depegToken_decision_witness :
  depegToken MoreSamples.unevenStable = Ok (Some (tokenB MoreSamples.unevenStable))
  /\ depegToken Sample.balancedStable = Ok (Some (tokenA Sample.balancedStable)).
Proof.
  split.
  - apply (proj1 (proj2 (depegToken_decision MoreSamples.unevenStable
                           (amp := 100) (tm := Sample.multipliers 1 1)
                           eq_refl ltac:(cbn; lia) ltac:(cbn; lia)
                           ltac:(cbn; lia)))); cbn; lia.
  - apply (proj1 (depegToken_decision Sample.balancedStable
                    (amp := 100) (tm := Sample.multipliers 1 1)
                    eq_refl ltac:(cbn; lia) ltac:(cbn; lia)
                    ltac:(cbn; lia))); cbn; lia.
Defined.

Lemma decodeSysvarClock_range_witness :
  decodeSysvarClock MoreSamples.shortAccount = Err CollaboratorFailure
  /\ exists timestamp,
       decodeSysvarClock MoreSamples.clockAccount = Ok timestamp
       /\ - 2 ^ 63 <= timestamp < 2 ^ 63.
Proof.
  split.
  - apply (proj1 (decodeSysvarClock_range MoreSamples.shortAccount)).
    cbn. lia.
  - apply (proj2 (decodeSysvarClock_range MoreSamples.clockAccount)).
    cbn. lia.
Defined.

Lemma decodeSysvarClock_reads_timestamp_field_witness :
  decodeSysvarClock MoreSamples.clockAccount = Ok 1700000000.
Proof.
  apply (decodeSysvarClock_reads_timestamp_field
           (repeat Byte.x00 32)
           [Byte.x00; Byte.xf1; Byte.x53; Byte.x65;
            Byte.x00; Byte.x00; Byte.x00; Byte.x00]
           []); reflexivity.
Defined.

Lemma stable_balanced_deposit_fails_on_empty_side_witness :
  getDepositQuote 20 Sample.withdrawable Sample.actualDeposit
    Sample.maxWithSlippage Sample.drainedStable 0 5 true 50
  = Err AssertionFailed
  /\ getDepositQuote 20 Sample.withdrawable Sample.actualDeposit
       Sample.maxWithSlippage Sample.drainedStableA 5 0 true 50
     = Err AssertionFailed.
Proof.
  split.
  - apply (proj1 (stable_balanced_deposit_fails_on_empty_side 20
                    Sample.withdrawable Sample.actualDeposit
                    Sample.maxWithSlippage Sample.drainedStable 5 50
                    (now := 1700000000) eq_refl ltac:(discriminate) eq_refl)).
    reflexivity.
  - apply (proj2 (stable_balanced_deposit_fails_on_empty_side 20
                    Sample.withdrawable Sample.actualDeposit
                    Sample.maxWithSlippage Sample.drainedStableA 5 50
                    (now := 1700000000) eq_refl ltac:(discriminate) eq_refl)).
    + reflexivity.
    + discriminate.
Defined.

Lemma single_sided_withdraw_fails_on_empty_vault_witness :
  getWithdrawQuote "Invalid mint" Sample.withdrawable Sample.emptyVaultStable
    10 50 (Some Sample.mintB)
  = Err AssertionFailed.
Proof.
  apply (single_sided_withdraw_fails_on_empty_vault "Invalid mint"
           Sample.withdrawable Sample.emptyVaultStable 10 50
           (now := 1700000000) (tokenMint := Sample.mintB) (direction := AToB)
           (vaultLpSupply := 0) (vaultTotalAmount := 0) (outAmount := 0)).
  - reflexivity.
  - reflexivity.
  - discriminate.
  - reflexivity.
  - right. repeat split.
  - reflexivity.
  - left. reflexivity.
Defined.

Lemma quotes_fail_on_wide_clock_witness :
  getSwapQuote Sample.swapQuote MoreSamples.wideClockPool Sample.mintA 10000 50
  = Err AssertionFailed
  /\ getWithdrawQuote "Invalid mint" Sample.withdrawable MoreSamples.wideClockPool
       10000 50 None
     = Err AssertionFailed
  /\ getDepositQuote 20 Sample.withdrawable Sample.actualDeposit
       Sample.maxWithSlippage MoreSamples.wideClockPool 0 1000 true 50
     = Err AssertionFailed.
Proof.
  destruct (quotes_fail_on_wide_clock 20 "Invalid mint" Sample.withdrawable
              Sample.actualDeposit Sample.maxWithSlippage Sample.swapQuote
              MoreSamples.wideClockPool Sample.mintA 10000 0 1000 true 50 None)
    as [Hswap [Hwithdraw Hdeposit]].
  - cbn. lia.
  - split; [exact Hswap | split; [exact Hwithdraw |]].
    apply Hdeposit; [discriminate | left; reflexivity].
Defined.
